(** * NwUtilities: connection lifecycle, jump-host tunnelling, SCP upload
      and e-mail notification of [NwUtilties.py], embedded as state-passing
      functions over an explicit manager state and an environment oracle. *)

From Stdlib Require Import String Ascii List ZArith Lia Bool DecimalString.
Import ListNotations.
Open Scope string_scope.

(** ** Python values used by the module *)

Module Py.

(** [not s] on an [Optional[str]]: [None] and the empty string are falsy. *)
Definition truthy (o : option string) : bool :=
  match o with
  | None => false
  | Some EmptyString => false
  | Some (String _ _) => true
  end.

(** [not l] on an [Optional[List[str]]]. *)
Definition truthy_list (o : option (list string)) : bool :=
  match o with
  | None => false
  | Some [] => false
  | Some (_ :: _) => true
  end.

(** [sep.join(l)]. *)
Fixpoint join (sep : string) (l : list string) : string :=
  match l with
  | [] => ""
  | [x] => x
  | x :: rest => x ++ sep ++ join sep rest
  end.

Definition str_of_Z (z : Z) : string := NilZero.string_of_int (Z.to_int z).

(** An [Optional[str]] interpolated in an f-string. *)
Definition fmt (o : option string) : string :=
  match o with Some s => s | None => "None" end.

(** An [Optional[int]] interpolated in an f-string. *)
Definition fmt_int (o : option Z) : string :=
  match o with Some z => str_of_Z z | None => "None" end.

(** [all(l)] on a list of [Optional[str]]. *)
Definition all (l : list (option string)) : bool := forallb truthy l.

(** [s.startswith('/')] and [s.endswith('/')]. *)
Definition startswith_sep (s : string) : bool :=
  match s with String "/" _ => true | _ => false end.

Fixpoint endswith_sep (s : string) : bool :=
  match s with
  | EmptyString => false
  | String c EmptyString => Ascii.eqb c "/"
  | String _ rest => endswith_sep rest
  end.

(** [os.path.join(a, b)] of [posixpath]. *)
Definition os_path_join (a b : string) : string :=
  if startswith_sep b then b
  else if orb (String.eqb a "") (endswith_sep a) then a ++ b
  else a ++ "/" ++ b.

Definition dq : string := String "034"%char EmptyString.
Definition nl : string := String "010"%char EmptyString.

End Py.

(** ** Exceptions, handles, external calls *)

(** The exceptions the module raises or catches, all of them instances of
    [Exception].  In the libraries [ConnectAuthError] is a [ConnectError] and
    [AuthenticationException] is an [SSHException]; the handlers below list
    the subclass first, as the source does. *)
Inductive Exc : Type :=
| ValueError (msg : string)
| FileNotFoundError (msg : string)
| ConnectAuthError (msg : string)
| ConnectError (msg : string)
| AuthenticationException (msg : string)
| SSHException (msg : string)
| OtherException (msg : string).

(** [str(e)], as interpolated by the [{e}] of the log messages. *)
Definition str_exc (e : Exc) : string :=
  match e with
  | ValueError m | FileNotFoundError m | ConnectAuthError m | ConnectError m
  | AuthenticationException m | SSHException m | OtherException m => m
  end.

(** Objects of the third-party libraries ([Device], [SSHClient], channels,
    [SCPClient], [SMTP]) are identified by the order of their construction. *)
Definition Handle := nat.

(** An e-mail under construction ([MIMEMultipart]). *)
Inductive Part : Type :=
| MIMEText (text subtype : string)
| MIMEApplication (data : list ascii) (subtype : string)
                  (header : string * string * string).

Record Message : Type := mkMessage {
  headers : list (string * string);
  parts : list Part
}.

(** Every call into a third-party client library: constructors, methods and
    the exit of a [with] block.  Attribute reads ([hostname],
    [get_transport()]) are not calls: the transport of a client is named by
    the handle of the client. *)
Inductive Call : Type :=
| DeviceNew (dev : Handle) (host user passwd : option string) (port : option Z)
| DeviceOpen (dev : Handle)
| DeviceClose (dev : Handle)
| SSHClientNew (c : Handle)
| LoadSystemHostKeys (c : Handle)
| SetMissingHostKeyPolicy (c : Handle)
| SSHConnect (c : Handle) (hostname username password : option string)
             (port : option Z) (sock : option Handle)
| OpenChannel (ch : Handle) (transport_of : Handle) (kind : string)
              (dest_addr src_addr : option string * option Z)
| SSHClose (c : Handle)
| SCPClientNew (scp : Handle) (transport_of : Handle)
| SCPPut (scp : Handle) (source destination : string)
| SCPGet (scp : Handle) (source destination : string)
| SCPClose (scp : Handle)
| SMTPNew (server : Handle) (smtp_server : string) (smtp_port : Z)
| SMTPSendMessage (server : Handle) (msg : Message)
| SMTPExit (server : Handle).

(** The handles a call is made on or passes along. *)
Definition call_handles (c : Call) : list Handle :=
  match c with
  | DeviceNew d _ _ _ _ | DeviceOpen d | DeviceClose d => [d]
  | SSHClientNew h | LoadSystemHostKeys h | SetMissingHostKeyPolicy h
  | SSHClose h => [h]
  | SSHConnect h _ _ _ _ sock =>
      h :: match sock with Some k => [k] | None => [] end
  | OpenChannel ch t _ _ _ => [ch; t]
  | SCPClientNew scp t => [scp; t]
  | SCPPut scp _ _ | SCPGet scp _ _ | SCPClose scp => [scp]
  | SMTPNew h _ _ | SMTPSendMessage h _ | SMTPExit h => [h]
  end.

(** The world outside the process.  Whether a library call raises may depend
    on every call made before it (most recent first); the local file system
    and the clock are fixed for the duration of one operation.  Writing a
    line to the standard output may raise as well (a stream that is closed,
    or that cannot encode the line), depending on the lines written before
    it. *)
Record Env : Type := mkEnv {
  fails : list Call -> Call -> option Exc;
  hostname_of : Handle -> string;
  path_exists : string -> bool;
  read_file : string -> Exc + list ascii;
  now : string;
  write_fails : list string -> string -> option Exc
}.

(** ** Manager state *)

(** Every call of the module's [logger] is recorded with its level, whatever
    threshold the logging configuration applies when printing. *)
Inductive Level : Type := DEBUG | INFO | WARNING | ERROR.

Record St : Type := mkSt {
  config : string -> string -> option string;
  _junos_device : option Handle;
  _jumphost_client : option Handle;
  _target_client : option Handle;
  next_id : Handle;
  log : list (Level * string);
  trace : list Call;
  stdout : list string
}.

(** [NwUtilities.__init__]: the configuration file is read when it exists
    (its absence is a warning) and the three slots start empty.  The log, the
    trace and the standard output list their entries most recent first. *)
Definition __init__ (config_file : option (string -> string -> option string))
    : St :=
  match config_file with
  | None =>
      mkSt (fun _ _ => None) None None None 0
           [(WARNING,
             "Config file './_config.ini' not found. Using kwargs only.")]
           [] []
  | Some cfg => mkSt cfg None None None 0 [] [] []
  end.

(** ** A state monad in which exceptions keep the state reached *)

Inductive Res (A : Type) : Type :=
| Ret (a : A)
| Raise (e : Exc).
Arguments Ret {A} a.
Arguments Raise {A} e.

Definition M (S A : Type) : Type := S -> Res A * S.

Definition ret {S A} (a : A) : M S A := fun s => (Ret a, s).
Definition raise {S A} (e : Exc) : M S A := fun s => (Raise e, s).

Definition bind {S A B} (m : M S A) (k : A -> M S B) : M S B :=
  fun s => match m s with
           | (Ret a, s') => k a s'
           | (Raise e, s') => (Raise e, s')
           end.

Definition try_except {S A} (m : M S A) (handler : Exc -> M S A) : M S A :=
  fun s => match m s with
           | (Ret a, s') => (Ret a, s')
           | (Raise e, s') => handler e s'
           end.

Definition gets {S A} (f : S -> A) : M S A := fun s => (Ret (f s), s).
Definition modify {S} (f : S -> S) : M S unit := fun s => (Ret tt, f s).

Declare Scope py_scope.
Delimit Scope py_scope with py.
Notation "x <- m ;; k" := (bind m (fun x => k))
  (at level 61, m at next level, right associativity) : py_scope.
Notation "m ;; k" := (bind m (fun _ => k))
  (at level 61, right associativity) : py_scope.
Open Scope py_scope.

(** [with ctor as x: body]: the exit runs whether or not the body raised;
    an exit that returns lets the body's outcome through. *)
Definition with_as {S A} (ctor : M S Handle) (body : Handle -> M S A)
    (exit : Handle -> M S unit) : M S A :=
  x <- ctor ;;
  fun s => match body x s with
           | (Ret a, s') => (exit x ;; ret a) s'
           | (Raise e, s') => (exit x ;; raise e) s'
           end.

(** ** State updates *)

Definition set_junos_device (v : option Handle) (s : St) : St :=
  mkSt (config s) v (_jumphost_client s) (_target_client s)
       (next_id s) (log s) (trace s) (stdout s).

Definition set_jumphost_client (v : option Handle) (s : St) : St :=
  mkSt (config s) (_junos_device s) v (_target_client s)
       (next_id s) (log s) (trace s) (stdout s).

Definition set_target_client (v : option Handle) (s : St) : St :=
  mkSt (config s) (_junos_device s) (_jumphost_client s) v
       (next_id s) (log s) (trace s) (stdout s).

Definition add_log (r : Level * string) (s : St) : St :=
  mkSt (config s) (_junos_device s) (_jumphost_client s) (_target_client s)
       (next_id s) (r :: log s) (trace s) (stdout s).

Definition add_call (c : Call) (s : St) : St :=
  mkSt (config s) (_junos_device s) (_jumphost_client s) (_target_client s)
       (next_id s) (log s) (c :: trace s) (stdout s).

Definition add_stdout (line : string) (s : St) : St :=
  mkSt (config s) (_junos_device s) (_jumphost_client s) (_target_client s)
       (next_id s) (log s) (trace s) (line :: stdout s).

Definition bump_id (s : St) : St :=
  mkSt (config s) (_junos_device s) (_jumphost_client s) (_target_client s)
       (S (next_id s)) (log s) (trace s) (stdout s).

Definition logger (lvl : Level) (msg : string) : M St unit :=
  modify (add_log (lvl, msg)).

(** A new object of a client library. *)
Definition alloc : M St Handle :=
  fun s => (Ret (next_id s), bump_id s).

(** The slots of the manager, as a triple. *)
Definition slots (s : St) : option Handle * option Handle * option Handle :=
  (_junos_device s, _jumphost_client s, _target_client s).

(** Every cached handle names an object that was constructed. *)
Definition slot_ok (s : St) (o : option Handle) : Prop :=
  match o with Some h => h < next_id s | None => True end.

Definition wf (s : St) : Prop :=
  slot_ok s (_junos_device s) /\ slot_ok s (_jumphost_client s)
  /\ slot_ok s (_target_client s).

Section Operations.

Variable env : Env.

(** A call into a library: it is recorded, then it returns or raises. *)
Definition call (c : Call) : M St unit :=
  fun s => match fails env (trace s) c with
           | None => (Ret tt, add_call c s)
           | Some e => (Raise e, add_call c s)
           end.

(** [print(line)]: the line reaches the standard output, or the write raises
    and nothing of the line is recorded. *)
Definition print (line : string) : M St unit :=
  fun s => match write_fails env (stdout s) line with
           | None => (Ret tt, add_stdout line s)
           | Some e => (Raise e, s)
           end.

(** [NwUtilities._get_config] *)
Definition _get_config (section key default : string) : M St string :=
  cfg <- gets config ;;
  match cfg section key with
  | Some v => ret v
  | None => ret default
  end.

(** *** Junos connection methods *)

(** [NwUtilities.junos_open_connection] *)
Definition junos_open_connection (hostname username password : option string)
    (port : option Z) : M St Handle :=
  cached <- gets _junos_device ;;
  match cached with
  | Some d =>
      logger INFO "Junos connection already open" ;;
      ret d
  | None =>
      try_except
        (logger INFO ("Connecting to Junos device: " ++ Py.fmt hostname) ;;
         dev <- alloc ;;
         call (DeviceNew dev hostname username password port) ;;
         call (DeviceOpen dev) ;;
         modify (set_junos_device (Some dev)) ;;
         logger INFO ("Successfully connected to " ++ hostname_of env dev) ;;
         ret dev)
        (fun e =>
           match e with
           | ConnectAuthError _ =>
               logger ERROR ("Authentication failed for " ++ Py.fmt hostname
                             ++ ": " ++ str_exc e) ;;
               raise e
           | ConnectError _ =>
               logger ERROR ("Connection failed to " ++ Py.fmt hostname
                             ++ ": " ++ str_exc e) ;;
               raise e
           | _ =>
               logger ERROR ("Unexpected error connecting to "
                             ++ Py.fmt hostname ++ ": " ++ str_exc e) ;;
               raise e
           end)
  end.

(** [NwUtilities.junos_close_connection] *)
Definition junos_close_connection : M St unit :=
  cached <- gets _junos_device ;;
  match cached with
  | Some d =>
      try_except
        (let hostname := hostname_of env d in
         call (DeviceClose d) ;;
         modify (set_junos_device None) ;;
         logger INFO ("Connection to " ++ hostname ++ " closed"))
        (fun e =>
           logger ERROR ("Error closing Junos connection: " ++ str_exc e))
  | None =>
      logger WARNING "No active Junos connection to close"
  end.

(** *** Jumphost connection methods *)

(** [NwUtilities.jumphost_connect] *)
Definition jumphost_connect (hostname username password : option string)
    (port : option Z) : M St Handle :=
  cached <- gets _jumphost_client ;;
  match cached with
  | Some c =>
      logger INFO "Jumphost connection already open" ;;
      ret c
  | None =>
      try_except
        (logger INFO ("Connecting to jumphost: " ++ Py.fmt username ++ "@"
                      ++ Py.fmt hostname ++ ":" ++ Py.fmt_int port) ;;
         jumphost_client <- alloc ;;
         call (SSHClientNew jumphost_client) ;;
         call (LoadSystemHostKeys jumphost_client) ;;
         call (SetMissingHostKeyPolicy jumphost_client) ;;
         call (SSHConnect jumphost_client hostname username password port
                          None) ;;
         modify (set_jumphost_client (Some jumphost_client)) ;;
         logger INFO "Successfully connected to jumphost" ;;
         ret jumphost_client)
        (fun e =>
           match e with
           | AuthenticationException _ =>
               logger ERROR ("Authentication failed for jumphost: "
                             ++ str_exc e) ;;
               raise e
           | SSHException _ =>
               logger ERROR ("SSH connection failed to jumphost: "
                             ++ str_exc e) ;;
               raise e
           | _ =>
               logger ERROR ("Unexpected error connecting to jumphost: "
                             ++ str_exc e) ;;
               raise e
           end)
  end.

(** [NwUtilities.jumphost_disconnect] *)
Definition jumphost_disconnect : M St unit :=
  cached <- gets _jumphost_client ;;
  match cached with
  | Some c =>
      try_except
        (call (SSHClose c) ;;
         modify (set_jumphost_client None) ;;
         logger INFO "Jumphost connection closed")
        (fun e =>
           logger ERROR ("Error closing jumphost connection: " ++ str_exc e))
  | None =>
      logger WARNING "No active jumphost connection to close"
  end.

(** *** Tunnelled connection through the jumphost *)

(** The local variables of [jumphost_transport_connect] that its handler
    looks up in [locals()]: bound once their assignment has run. *)
Record Locals : Type := mkLocals {
  jumphost : option Handle;
  target : option Handle
}.

Definition Frame : Type := (Locals * St)%type.

Definition lift {A} (m : M St A) : M Frame A :=
  fun f => match m (snd f) with (r, s') => (r, (fst f, s')) end.

Definition assign_jumphost (h : Handle) : M Frame unit :=
  modify (fun f => (mkLocals (Some h) (target (fst f)), snd f)).

Definition assign_target (h : Handle) : M Frame unit :=
  modify (fun f => (mkLocals (jumphost (fst f)) (Some h), snd f)).

(** Run a function body in a fresh frame. *)
Definition in_frame {A} (m : M Frame A) : M St A :=
  fun s => match m (mkLocals None None, s) with (r, f) => (r, snd f) end.

(** [NwUtilities.jumphost_transport_connect] *)
Definition jumphost_transport_connect
    (hostname username password : option string) (port : option Z)
    (dst_host dst_username dst_password : option string)
    (dst_port : option Z) : M St (Handle * Handle) :=
  if negb (Py.truthy dst_host) then
    raise (ValueError "dst_host must be set for jumphost transport connection")
  else
    cached_target <- gets _target_client ;;
    cached_jumphost <- gets _jumphost_client ;;
    match cached_target, cached_jumphost with
    | Some t, Some j =>
        logger INFO "Jumphost transport connection already open" ;;
        ret (t, j)
    | _, _ =>
        in_frame
          (try_except
             (lift (logger INFO ("Connecting to jumphost: "
                                 ++ Py.fmt username ++ "@" ++ Py.fmt hostname
                                 ++ ":" ++ Py.fmt_int port)) ;;
              j <- lift alloc ;;
              lift (call (SSHClientNew j)) ;;
              assign_jumphost j ;;
              lift (call (LoadSystemHostKeys j)) ;;
              lift (call (SetMissingHostKeyPolicy j)) ;;
              lift (call (SSHConnect j hostname username password port
                                     None)) ;;
              lift (logger INFO
                      "Jumphost connected, creating tunnel to target device") ;;
              let src_address := (hostname, port) in
              let dest_address := (dst_host, dst_port) in
              jumpbox_channel <- lift alloc ;;
              lift (call (OpenChannel jumpbox_channel j "direct-tcpip"
                                      dest_address src_address)) ;;
              lift (logger INFO ("Connecting to target device: "
                                 ++ Py.fmt dst_host)) ;;
              t <- lift alloc ;;
              lift (call (SSHClientNew t)) ;;
              assign_target t ;;
              lift (call (SetMissingHostKeyPolicy t)) ;;
              lift (call (SSHConnect t dst_host dst_username dst_password
                                     dst_port (Some jumpbox_channel))) ;;
              lift (modify (set_target_client (Some t))) ;;
              lift (modify (set_jumphost_client (Some j))) ;;
              lift (logger INFO ("Successfully connected to target device: "
                                 ++ Py.fmt dst_host)) ;;
              ret (t, j))
             (fun e =>
                lift (logger ERROR
                        ("Failed to establish jumphost transport connection: "
                         ++ str_exc e)) ;;
                locals <- gets fst ;;
                match target locals with
                | Some t => lift (call (SSHClose t))
                | None => ret tt
                end ;;
                match jumphost locals with
                | Some j => lift (call (SSHClose j))
                | None => ret tt
                end ;;
                raise e))
    end.

(** [NwUtilities.jumphost_transport_disconnect] *)
Definition jumphost_transport_disconnect : M St unit :=
  cached_target <- gets _target_client ;;
  match cached_target with
  | Some t =>
      try_except
        (call (SSHClose t) ;;
         modify (set_target_client None) ;;
         logger INFO "Target connection closed")
        (fun e =>
           logger ERROR ("Error closing target connection: " ++ str_exc e))
  | None => ret tt
  end ;;
  cached_jumphost <- gets _jumphost_client ;;
  match cached_jumphost with
  | Some j =>
      try_except
        (call (SSHClose j) ;;
         modify (set_jumphost_client None) ;;
         logger INFO "Jumphost connection closed")
        (fun e =>
           logger ERROR ("Error closing jumphost connection: " ++ str_exc e))
  | None => ret tt
  end.

(** *** File transfer *)

(** [NwUtilities.copy_file_local_to_remote] *)
Definition copy_file_local_to_remote (src_path dst_path : option string)
    (use_jumphost : bool) : M St bool :=
  let source := src_path in
  let destination := dst_path in
  if negb (Py.truthy source) || negb (Py.truthy destination) then
    logger ERROR "Source and destination paths must be provided" ;;
    ret false
  else if negb (path_exists env (Py.fmt source)) then
    raise (FileNotFoundError ("Source file not found: " ++ Py.fmt source))
  else
    try_except
      (if use_jumphost then
         logger INFO ("Copying " ++ Py.fmt source ++ " to "
                      ++ Py.fmt destination ++ " via jumphost") ;;
         jumphost <- jumphost_connect None None None (Some 22%Z) ;;
         with_as (scp <- alloc ;; call (SCPClientNew scp jumphost) ;; ret scp)
                 (fun scp =>
                    call (SCPPut scp (Py.fmt source) (Py.fmt destination)))
                 (fun scp => call (SCPClose scp)) ;;
         logger INFO ("Successfully copied " ++ Py.fmt source ++ " to "
                      ++ Py.fmt destination) ;;
         ret true
       else
         logger ERROR "Direct SCP not implemented. Use use_jumphost=True" ;;
         ret false)
      (fun e =>
         logger ERROR ("Failed to copy file: " ++ str_exc e) ;;
         raise e).

(** [NwUtilities.copy_file_remote_to_local] *)
Definition copy_file_remote_to_local (src_path dst_path : option string)
    (use_jumphost : bool) : M St bool :=
  let source := src_path in
  let destination := dst_path in
  if negb (Py.truthy source) || negb (Py.truthy destination) then
    logger ERROR "Source and destination paths must be provided" ;;
    ret false
  else
    try_except
      (if use_jumphost then
         logger INFO ("Copying " ++ Py.fmt source ++ " from remote to "
                      ++ Py.fmt destination) ;;
         jumphost <- jumphost_connect None None None (Some 22%Z) ;;
         with_as (scp <- alloc ;; call (SCPClientNew scp jumphost) ;; ret scp)
                 (fun scp =>
                    call (SCPGet scp (Py.fmt source) (Py.fmt destination)))
                 (fun scp => call (SCPClose scp)) ;;
         logger INFO ("Successfully copied " ++ Py.fmt source ++ " to "
                      ++ Py.fmt destination) ;;
         ret true
       else
         logger ERROR "Direct SCP not implemented. Use use_jumphost=True" ;;
         ret false)
      (fun e =>
         logger ERROR ("Failed to copy file: " ++ str_exc e) ;;
         raise e).

(** *** E-mail *)

(** [MIMEMultipart()]: a new message carries its content type and the MIME
    version before any header is set. *)
Definition MIMEMultipart : Message :=
  mkMessage [("Content-Type", "multipart/mixed"); ("MIME-Version", "1.0")]
            [].

(** [msg[key] = value] and [msg.attach(part)]. *)
Definition set_header (key value : string) (msg : Message) : Message :=
  mkMessage (headers msg ++ [(key, value)]) (parts msg).

Definition attach (p : Part) (msg : Message) : Message :=
  mkMessage (headers msg) (parts msg ++ [p]).

(** The names of the required parameters of [send_email]. *)
Definition required (email_from email_to email_subject greeting email_body
    : option string) : list (string * option string) :=
  [("email_from", email_from); ("email_to", email_to);
   ("email_subject", email_subject); ("greeting", greeting);
   ("email_body", email_body)].

(** The list comprehension [param for param, value in {...}.items()
    if not value]. *)
Definition missing_of (items : list (string * option string)) : list string :=
  map fst (filter (fun item => negb (Py.truthy (snd item))) items).

(** The HTML body, an f-string over the greeting, the body and the footer. *)
Definition html_of (greet body email_footer : string) : string :=
  let ind := "            " in
  ind ++ "<html>" ++ Py.nl ++
  ind ++ "    <head>" ++ Py.nl ++
  ind ++ "        <meta charset=" ++ Py.dq ++ "UTF-8" ++ Py.dq ++ ">" ++ Py.nl ++
  ind ++ "        <style>" ++ Py.nl ++
  ind ++ "            body {" ++ Py.nl ++
  ind ++ "                font-family: Arial, sans-serif;" ++ Py.nl ++
  ind ++ "                line-height: 1.6;" ++ Py.nl ++
  ind ++ "                color: #333333;" ++ Py.nl ++
  ind ++ "            }" ++ Py.nl ++
  ind ++ "        </style>" ++ Py.nl ++
  ind ++ "    </head>" ++ Py.nl ++
  ind ++ "    <body>" ++ Py.nl ++
  ind ++ "        <p>" ++ greet ++ "</p>" ++ Py.nl ++
  ind ++ "        <p>" ++ body ++ "</p>" ++ Py.nl ++
  ind ++ "        <p></p>" ++ Py.nl ++
  ind ++ "        <p>- Grasshopper Automation</p>" ++ Py.nl ++
  ind ++ "        " ++
    (if String.eqb email_footer "" then ""
     else "<p>- " ++ email_footer ++ "</p>") ++ Py.nl ++
  ind ++ "    </body>" ++ Py.nl ++
  ind ++ "</html>" ++ Py.nl ++
  ind.

(** The loop [for filename in attachments] of [send_email]. *)
Fixpoint attach_files (attach_path : string) (attachments : list string)
    (msg : Message) : M St Message :=
  match attachments with
  | [] => ret msg
  | filename :: rest =>
      let file_path := Py.os_path_join attach_path filename in
      if negb (path_exists env file_path) then
        logger WARNING ("Attachment not found: " ++ file_path) ;;
        attach_files attach_path rest msg
      else
        match read_file env file_path with
        | inl e => raise e
        | inr data =>
            let attachment :=
              MIMEApplication data "txt"
                ("Content-Disposition", "attachment", filename) in
            let msg := attach attachment msg in
            logger DEBUG ("Attached: " ++ filename) ;;
            attach_files attach_path rest msg
        end
  end.

(** [NwUtilities.send_email] *)
Definition send_email (email_from email_to email_subject email_body greeting
    : option string) (cc_emails : option (list string))
    (destination_path : option string) (attach_list : option (list string))
    (smtp_server : string) (smtp_port : Z) : M St bool :=
  let from_addr := email_from in
  let to_addr := email_to in
  let subject := email_subject in
  let body := email_body in
  let greet := greeting in
  let cc_list := cc_emails in
  let attach_path := destination_path in
  let attachments := attach_list in
  if negb (Py.all [from_addr; to_addr; subject; greet; body]) then
    let missing :=
      missing_of (required from_addr to_addr subject greet body) in
    raise (ValueError ("Missing required email parameters: "
                       ++ Py.join ", " missing))
  else
    try_except
      (logger INFO ("Preparing email to " ++ Py.fmt to_addr) ;;
       let msg := MIMEMultipart in
       let msg := set_header "Date" (now env) msg in
       let msg := set_header "From" (Py.fmt from_addr) msg in
       let msg := set_header "To" (Py.fmt to_addr) msg in
       let msg := set_header "Subject" (Py.fmt subject) msg in
       let msg :=
         match cc_list with
         | Some (c :: cs) => set_header "Cc" (Py.join ", " (c :: cs)) msg
         | _ => msg
         end in
       email_footer <- _get_config "email_data" "email_footer" "" ;;
       let html := html_of (Py.fmt greet) (Py.fmt body) email_footer in
       let msg := attach (MIMEText html "html") msg in
       msg <- (if Py.truthy_list attachments && Py.truthy attach_path then
                 let names := match attachments with
                              | Some l => l
                              | None => []
                              end in
                 logger INFO ("Attaching "
                              ++ Py.str_of_Z (Z.of_nat (List.length names))
                              ++ " file(s)") ;;
                 attach_files (Py.fmt attach_path) names msg
               else ret msg) ;;
       logger INFO ("Sending email via " ++ smtp_server ++ ":"
                    ++ Py.str_of_Z smtp_port) ;;
       with_as (server <- alloc ;;
                call (SMTPNew server smtp_server smtp_port) ;;
                ret server)
               (fun server => call (SMTPSendMessage server msg))
               (fun server => call (SMTPExit server)) ;;
       logger INFO ("Email sent successfully to " ++ Py.fmt to_addr) ;;
       print ("✓ Email sent to " ++ Py.fmt to_addr) ;;
       ret true)
      (fun e =>
         logger ERROR ("Failed to send email: " ++ str_exc e) ;;
         raise e).

(** [NwUtilities.close_all_connections] *)
Definition close_all_connections : M St unit :=
  logger INFO "Closing all connections" ;;
  junos_close_connection ;;
  jumphost_transport_disconnect ;;
  jumphost_disconnect ;;
  logger INFO "All connections closed".

End Operations.

(** ** Context manager and local file-system helpers *)

(** The local file system as the helpers see it: the answers of
    [os.path.isdir] and [os.path.isfile], and whether
    [Path(path).mkdir(parents=True, exist_ok=True)] raises. *)
Record Os : Type := mkOs {
  isdir : string -> bool;
  isfile : string -> bool;
  mkdir : string -> option Exc
}.

Section Helpers.

Variable os : Os.

(** [NwUtilities.check_directory_exists] *)
Definition check_directory_exists (directory_path : option string)
    : M St bool :=
  let path := directory_path in
  if negb (Py.truthy path) then
    logger ERROR "No directory path provided" ;;
    ret false
  else
    let exists_ := isdir os (Py.fmt path) in
    (if exists_ then
       logger INFO ("Directory exists: " ++ Py.fmt path)
     else
       logger WARNING ("Directory does not exist: " ++ Py.fmt path)) ;;
    ret exists_.

(** [NwUtilities.check_file_exists] *)
Definition check_file_exists (filename : option string) : M St bool :=
  let file := filename in
  if negb (Py.truthy file) then
    logger ERROR "No filename provided" ;;
    ret false
  else
    let exists_ := isfile os (Py.fmt file) in
    (if exists_ then
       logger INFO ("File exists: " ++ Py.fmt file)
     else
       logger WARNING ("File does not exist: " ++ Py.fmt file)) ;;
    ret exists_.

(** [NwUtilities.create_directory] *)
Definition create_directory (directory_path : option string) : M St bool :=
  let path := directory_path in
  if negb (Py.truthy path) then
    logger ERROR "No directory path provided" ;;
    ret false
  else
    try_except
      (match mkdir os (Py.fmt path) with
       | Some e => raise e
       | None => ret tt
       end ;;
       logger INFO ("Directory created/verified: " ++ Py.fmt path) ;;
       ret true)
      (fun e =>
         logger ERROR ("Failed to create directory " ++ Py.fmt path ++ ": "
                       ++ str_exc e) ;;
         ret false).

End Helpers.

(** [NwUtilities.__enter__]: the manager itself is what the block gets. *)
Definition __enter__ : M St unit := ret tt.

(** [NwUtilities.__exit__]: the teardown runs whatever ended the block, and
    its [None] result lets an exception of the block through. *)
Definition __exit__ (env : Env) (exc_val : option Exc) : M St unit :=
  close_all_connections env.

(** The calls that close a session. *)
Definition is_close (c : Call) : bool :=
  match c with
  | DeviceClose _ | SSHClose _ => true
  | _ => false
  end.

(** The closes of a teardown, most recent first: the device, then the target
    client, then the jump-host client, each when its slot holds a session. *)
Definition teardown_closes (s : St) : list Call :=
  (match _jumphost_client s with Some j => [SSHClose j] | None => [] end
   ++ match _target_client s with Some t => [SSHClose t] | None => [] end
   ++ match _junos_device s with Some d => [DeviceClose d] | None => [] end)
  %list.

(** In a list of calls, most recent first, every [connect] of an SSH client
    comes after a [set_missing_host_key_policy] on the same client. *)
Fixpoint policy_before_connect (calls : list Call) : bool :=
  match calls with
  | [] => true
  | SSHConnect c _ _ _ _ _ :: earlier =>
      existsb (fun k => match k with
                        | SetMissingHostKeyPolicy c' => Nat.eqb c c'
                        | _ => false
                        end) earlier
      && policy_before_connect earlier
  | _ :: earlier => policy_before_connect earlier
  end.

(** A [StartShell] object: its constructor only stores the device it is
    given; nothing is sent before the shell is opened by its user. *)
Record StartShell : Type := mkStartShell { nc : Handle }.

(** [NwUtilities.connect_junos_shell] *)
Definition connect_junos_shell (env : Env) : M St StartShell :=
  try_except
    (dev <- junos_open_connection env None None None (Some 22%Z) ;;
     let shell := mkStartShell dev in
     logger INFO ("Connected to shell mode of " ++ hostname_of env dev) ;;
     ret shell)
    (fun e =>
       logger ERROR ("Failed to start shell session: " ++ str_exc e) ;;
       raise e).

(** Two slots do not hold the same object. *)
Definition differ (a b : option Handle) : Prop :=
  match a, b with
  | Some x, Some y => x <> y
  | _, _ => True
  end.

(** The cached sessions are constructed objects, pairwise different. *)
Definition inv (s : St) : Prop :=
  wf s
  /\ differ (_junos_device s) (_jumphost_client s)
  /\ differ (_junos_device s) (_target_client s)
  /\ differ (_jumphost_client s) (_target_client s).

(** An operation that keeps a property of the state, whether it returns or
    raises. *)
Definition keeps (P : St -> Prop) {A} (m : M St A) : Prop :=
  forall s r s', P s -> m s = (r, s') -> P s'.

(** One call of a method of the manager, with any arguments, in any
    environment. *)
Inductive step : St -> St -> Prop :=
| step_junos_open_connection env hostname username password port s :
    step s (snd (junos_open_connection env hostname username password port
                   s))
| step_junos_close_connection env s :
    step s (snd (junos_close_connection env s))
| step_connect_junos_shell env s :
    step s (snd (connect_junos_shell env s))
| step_jumphost_connect env hostname username password port s :
    step s (snd (jumphost_connect env hostname username password port s))
| step_jumphost_disconnect env s :
    step s (snd (jumphost_disconnect env s))
| step_jumphost_transport_connect env hostname username password port
    dst_host dst_username dst_password dst_port s :
    step s (snd (jumphost_transport_connect env hostname username password
                   port dst_host dst_username dst_password dst_port s))
| step_jumphost_transport_disconnect env s :
    step s (snd (jumphost_transport_disconnect env s))
| step_check_directory_exists os directory_path s :
    step s (snd (check_directory_exists os directory_path s))
| step_check_file_exists os filename s :
    step s (snd (check_file_exists os filename s))
| step_create_directory os directory_path s :
    step s (snd (create_directory os directory_path s))
| step_copy_file_local_to_remote env src_path dst_path use_jumphost s :
    step s (snd (copy_file_local_to_remote env src_path dst_path
                   use_jumphost s))
| step_send_email env email_from email_to email_subject email_body greeting
    cc_emails destination_path attach_list smtp_server smtp_port s :
    step s (snd (send_email env email_from email_to email_subject email_body
                   greeting cc_emails destination_path attach_list
                   smtp_server smtp_port s))
| step_close_all_connections env s :
    step s (snd (close_all_connections env s))
| step_exit env exc_val s :
    step s (snd (__exit__ env exc_val s))
| step_copy_file_remote_to_local env src_path dst_path use_jumphost s :
    step s (snd (copy_file_remote_to_local env src_path dst_path
                   use_jumphost s))
| step_enter s :
    step s (snd (__enter__ s))
| step_get_config section key default s :
    step s (snd (_get_config section key default s)).

(** The states a manager goes through after its construction. *)
Inductive reachable : St -> Prop :=
| reachable_init config_file : reachable (__init__ config_file)
| reachable_step s s' : reachable s -> step s s' -> reachable s'.

(** One call of a method of the manager that closes no session, with any
    arguments, in any environment.  [tunnel] tells whether
    [jumphost_transport_connect] is among these methods. *)
Inductive no_close_step (tunnel : bool) : St -> St -> Prop :=
| quiet_get_config section key default s :
    no_close_step tunnel s (snd (_get_config section key default s))
| quiet_junos_open_connection env hostname username password port s :
    no_close_step tunnel s
      (snd (junos_open_connection env hostname username password port s))
| quiet_connect_junos_shell env s :
    no_close_step tunnel s (snd (connect_junos_shell env s))
| quiet_jumphost_connect env hostname username password port s :
    no_close_step tunnel s
      (snd (jumphost_connect env hostname username password port s))
| quiet_jumphost_transport_connect env hostname username password port
    dst_host dst_username dst_password dst_port s :
    tunnel = true ->
    no_close_step tunnel s
      (snd (jumphost_transport_connect env hostname username password port
              dst_host dst_username dst_password dst_port s))
| quiet_check_directory_exists os directory_path s :
    no_close_step tunnel s (snd (check_directory_exists os directory_path s))
| quiet_check_file_exists os filename s :
    no_close_step tunnel s (snd (check_file_exists os filename s))
| quiet_create_directory os directory_path s :
    no_close_step tunnel s (snd (create_directory os directory_path s))
| quiet_copy_file_local_to_remote env src_path dst_path use_jumphost s :
    no_close_step tunnel s
      (snd (copy_file_local_to_remote env src_path dst_path use_jumphost s))
| quiet_copy_file_remote_to_local env src_path dst_path use_jumphost s :
    no_close_step tunnel s
      (snd (copy_file_remote_to_local env src_path dst_path use_jumphost s))
| quiet_send_email env email_from email_to email_subject email_body greeting
    cc_emails destination_path attach_list smtp_server smtp_port s :
    no_close_step tunnel s
      (snd (send_email env email_from email_to email_subject email_body
              greeting cc_emails destination_path attach_list smtp_server
              smtp_port s))
| quiet_enter s :
    no_close_step tunnel s (snd (__enter__ s)).

(** Any number of such calls, one after the other. *)
Inductive no_close_run (tunnel : bool) : St -> St -> Prop :=
| no_close_done s : no_close_run tunnel s s
| no_close_next s s' s'' :
    no_close_step tunnel s s' ->
    no_close_run tunnel s' s'' ->
    no_close_run tunnel s s''.

(** ** Notions used to state the properties *)

(** [x] occurs in [s]. *)
Definition occurs (x s : string) : Prop :=
  exists pre post, s = pre ++ x ++ post.

(** Several log records added at once, most recent first. *)
Definition add_logs (rs : list (Level * string)) (s : St) : St :=
  mkSt (config s) (_junos_device s) (_jumphost_client s) (_target_client s)
       (next_id s) (rs ++ log s) (trace s) (stdout s).

(** The attachments of the names whose resolved path exists, in the order of
    the list: the raw bytes of the file, subtype [txt]. *)
Definition found_attachments (env : Env) (attach_path : string)
    (names : list string) : list Part :=
  map (fun filename =>
         MIMEApplication
           (match read_file env (Py.os_path_join attach_path filename) with
            | inr data => data
            | inl _ => []
            end)
           "txt" ("Content-Disposition", "attachment", filename))
      (filter (fun filename =>
                 path_exists env (Py.os_path_join attach_path filename))
              names).



(** An operation that takes well-formed states to well-formed states,
    whether it returns or raises. *)
Definition preserves_wf {A} (m : M St A) : Prop :=
  forall s r s', wf s -> m s = (r, s') -> wf s'.


(** ** Concrete environments and states used by the examples *)

(** A manager constructed next to a configuration file without entries. *)
Definition new_manager : St := __init__ (Some (fun _ _ => None)).

(** Every library call returns; one file exists under [/var/tmp]. *)
Definition env_ok : Env :=
  mkEnv (fun _ _ => None)
        (fun _ => "router1")
        (fun p => String.eqb p "/var/tmp/report.txt")
        (fun p => if String.eqb p "/var/tmp/report.txt"
                  then inr ["o"%char; "k"%char]
                  else inl (FileNotFoundError p))
        "Wed, 04 Nov 2026 12:00:00 " (fun _ _ => None).

(** The jump host accepts the connection and the channel, the target refuses
    the login. *)
Definition env_target_refuses : Env :=
  mkEnv (fun _ c => match c with
                    | SSHConnect _ _ _ _ _ (Some _) =>
                        Some (AuthenticationException "Authentication failed.")
                    | _ => None
                    end)
        (fun _ => "router1") (fun _ => false)
        (fun p => inl (FileNotFoundError p)) "" (fun _ _ => None).

(** The target refuses the login and closing the target client raises. *)
Definition env_cleanup_raises : Env :=
  mkEnv (fun _ c => match c with
                    | SSHConnect _ _ _ _ _ (Some _) =>
                        Some (AuthenticationException "Authentication failed.")
                    | SSHClose 2 => Some (OtherException "Socket is closed")
                    | _ => None
                    end)
        (fun _ => "router1") (fun _ => false)
        (fun p => inl (FileNotFoundError p)) "" (fun _ _ => None).

(** Closing a device or an SSH client raises. *)
Definition env_close_raises : Env :=
  mkEnv (fun _ c => match c with
                    | DeviceClose _ => Some (ConnectError "RpcTimeoutError")
                    | SSHClose _ => Some (SSHException "Socket is closed")
                    | _ => None
                    end)
        (fun _ => "router1") (fun _ => false)
        (fun p => inl (FileNotFoundError p)) "" (fun _ _ => None).


(** The relay refuses the connection. *)
Definition env_relay_down : Env :=
  mkEnv (fun _ c => match c with
                    | SMTPNew _ _ _ =>
                        Some (OtherException "Connection refused")
                    | _ => None
                    end)
        (hostname_of env_ok) (path_exists env_ok) (read_file env_ok)
        (now env_ok) (fun _ _ => None).



Arguments html_of : simpl never.
Arguments Py.str_of_Z : simpl never.

(** ** Reasoning support *)

Ltac run_ops :=
  unfold junos_open_connection, junos_close_connection, jumphost_connect,
    jumphost_disconnect, jumphost_transport_connect,
    jumphost_transport_disconnect, copy_file_local_to_remote, with_as,
    in_frame, lift, assign_jumphost, assign_target, _get_config, logger,
    print, call, alloc, bind, try_except, ret, raise, gets, modify in *;
  simpl in *.

(** Split on the outcome of the next library call of a run [H], or of the
    goal. *)
Ltac oracle_in H :=
  match type of H with
  | context [fails ?e ?h ?c] =>
      let E := fresh "Hcall" in destruct (fails e h c) eqn:E; simpl in H
  end.

Ltac oracle :=
  match goal with
  | |- context [fails ?e ?h ?c] =>
      let E := fresh "Hcall" in destruct (fails e h c) eqn:E; simpl
  end.

Ltac by_exc :=
  match goal with
  | e : Exc |- _ => destruct e; simpl in *
  end.

(** ** The tunnel: argument check and failure behaviour *)

(** C5. A call of [jumphost_transport_connect] whose [dst_host] is [None] or
    empty raises [ValueError] and leaves the whole state as it was: no
    library call is recorded, whatever the other arguments and the cached
    sessions are. *)
Theorem transport_connect_requires_dst_host :
  forall env hostname username password port dst_host dst_username
         dst_password dst_port s,
    Py.truthy dst_host = false ->
    jumphost_transport_connect env hostname username password port dst_host
      dst_username dst_password dst_port s
    = (Raise (ValueError
                "dst_host must be set for jumphost transport connection"), s).
Proof.
  intros * Hdst. unfold jumphost_transport_connect.
  rewrite Hdst. reflexivity.
Qed.

Lemma transport_connect_requires_dst_host_witness :
  let s := set_target_client (Some 1)
             (set_jumphost_client (Some 0) (bump_id (bump_id new_manager))) in
  jumphost_transport_connect env_ok (Some "jump") (Some "u") (Some "p")
    (Some 22%Z) (Some "") (Some "u") (Some "p") (Some 22%Z) s
  = (Raise (ValueError
              "dst_host must be set for jumphost transport connection"), s).
Proof.
  apply (transport_connect_requires_dst_host env_ok). reflexivity.
Defined.

(** C9. When [jumphost_transport_connect] raises, the three slots of the
    manager hold what they held before the call. *)
Theorem transport_connect_raise_keeps_slots :
  forall env hostname username password port dst_host dst_username
         dst_password dst_port s e s',
    jumphost_transport_connect env hostname username password port dst_host
      dst_username dst_password dst_port s = (Raise e, s') ->
    _target_client s' = _target_client s
    /\ _jumphost_client s' = _jumphost_client s
    /\ _junos_device s' = _junos_device s.
Proof.
  intros * Hrun. unfold jumphost_transport_connect in Hrun.
  destruct (Py.truthy dst_host); simpl in Hrun.
  - run_ops.
    destruct (_target_client s) eqn:Ht, (_jumphost_client s) eqn:Hj;
      simpl in Hrun; try discriminate;
      repeat oracle_in Hrun;
      inversion Hrun; subst; simpl; rewrite ?Ht, ?Hj; auto.
  - inversion Hrun; subst; auto.
Qed.

Lemma transport_connect_raise_keeps_slots_witness :
  let s := set_jumphost_client (Some 0) (bump_id new_manager) in
  let run := jumphost_transport_connect env_target_refuses (Some "jump")
               (Some "u") (Some "p") (Some 22%Z) (Some "target") (Some "u")
               (Some "p") (Some 22%Z) s in
  fst run = Raise (AuthenticationException "Authentication failed.")
  /\ _target_client (snd run) = _target_client s
  /\ _jumphost_client (snd run) = _jumphost_client s
  /\ _junos_device (snd run) = _junos_device s.
Proof.
  intros s run. split; [vm_compute; reflexivity |].
  apply (transport_connect_raise_keeps_slots env_target_refuses (Some "jump")
           (Some "u") (Some "p") (Some 22%Z) (Some "target") (Some "u")
           (Some "p") (Some 22%Z) s
           (AuthenticationException "Authentication failed.") (snd run)).
  vm_compute. reflexivity.
Defined.

(** ** Cached handles name constructed objects *)

Ltac wf_cases :=
  unfold wf, slot_ok in *; simpl in *;
  repeat match goal with
         | H : _ /\ _ |- _ => destruct H
         | |- context [match ?o with Some _ => _ | None => _ end] =>
             destruct o
         end;
  repeat split; auto; lia.

Lemma wf_init : forall config_file, wf (__init__ config_file).
Proof. intros [cfg |]; unfold wf, slot_ok; simpl; auto. Qed.

Lemma junos_open_connection_wf :
  forall env hostname username password port s r s',
    wf s ->
    junos_open_connection env hostname username password port s = (r, s') ->
    wf s'.
Proof.
  intros * Hwf Hrun. run_ops.
  destruct (_junos_device s) eqn:Hd; simpl in Hrun;
    repeat oracle_in Hrun; try by_exc; inversion Hrun; subst; clear Hrun;
    wf_cases.
Qed.

Lemma jumphost_connect_wf :
  forall env hostname username password port s r s',
    wf s ->
    jumphost_connect env hostname username password port s = (r, s') ->
    wf s'.
Proof.
  intros * Hwf Hrun. run_ops.
  destruct (_jumphost_client s) eqn:Hc; simpl in Hrun;
    repeat oracle_in Hrun; try by_exc; inversion Hrun; subst; clear Hrun;
    wf_cases.
Qed.

Lemma jumphost_transport_connect_wf :
  forall env hostname username password port dst_host dst_username
         dst_password dst_port s r s',
    wf s ->
    jumphost_transport_connect env hostname username password port dst_host
      dst_username dst_password dst_port s = (r, s') ->
    wf s'.
Proof.
  intros * Hwf Hrun. unfold jumphost_transport_connect in Hrun.
  destruct (Py.truthy dst_host); simpl in Hrun;
    [| inversion Hrun; subst; exact Hwf].
  run_ops.
  destruct (_target_client s) eqn:Ht, (_jumphost_client s) eqn:Hj;
    simpl in Hrun;
    repeat oracle_in Hrun; inversion Hrun; subst; clear Hrun; wf_cases.
Qed.

Lemma close_all_connections_wf :
  forall env s r s',
    wf s -> close_all_connections env s = (r, s') -> wf s'.
Proof.
  intros * Hwf Hrun. unfold close_all_connections in Hrun. run_ops.
  destruct (_junos_device s) eqn:Hd, (_target_client s) eqn:Ht,
    (_jumphost_client s) eqn:Hj; simpl in Hrun;
    repeat first [ progress (rewrite ?Hd, ?Ht, ?Hj in Hrun; simpl in Hrun)
                 | oracle_in Hrun ];
    inversion Hrun; subst; clear Hrun; wf_cases.
Qed.

(** *** Composite operations keep the invariant *)

Lemma preserves_ret : forall A (a : A), preserves_wf (ret a).
Proof. intros A a s r s' Hwf Hrun. inversion Hrun; subst. exact Hwf. Qed.

Lemma preserves_raise : forall A e, preserves_wf (@raise St A e).
Proof. intros A e s r s' Hwf Hrun. inversion Hrun; subst. exact Hwf. Qed.

Lemma preserves_gets :
  forall A (f : St -> A), preserves_wf (gets f).
Proof. intros A f s r s' Hwf Hrun. inversion Hrun; subst. exact Hwf. Qed.

Lemma preserves_logger : forall lvl msg, preserves_wf (logger lvl msg).
Proof. intros lvl msg s r s' Hwf Hrun. inversion Hrun; subst. exact Hwf. Qed.

Lemma preserves_print : forall env line, preserves_wf (print env line).
Proof.
  intros env line s r s' Hwf Hrun. unfold print in Hrun.
  destruct (write_fails env (stdout s) line); inversion Hrun; subst;
    exact Hwf.
Qed.

Lemma preserves_call : forall env c, preserves_wf (call env c).
Proof.
  intros env c s r s' Hwf Hrun. unfold call in Hrun.
  destruct (fails env (trace s) c); inversion Hrun; subst; exact Hwf.
Qed.

Lemma preserves_alloc : preserves_wf alloc.
Proof.
  intros s r s' Hwf Hrun. inversion Hrun; subst. wf_cases.
Qed.

Lemma preserves_bind :
  forall A B (m : M St A) (k : A -> M St B),
    preserves_wf m -> (forall a, preserves_wf (k a)) ->
    preserves_wf (bind m k).
Proof.
  intros A B m k Hm Hk s r s' Hwf Hrun. unfold bind in Hrun.
  destruct (m s) as [[a | e] s1] eqn:Hms.
  - exact (Hk a s1 r s' (Hm s _ s1 Hwf Hms) Hrun).
  - inversion Hrun; subst. exact (Hm s _ s' Hwf Hms).
Qed.

Lemma preserves_try_except :
  forall A (m : M St A) (handler : Exc -> M St A),
    preserves_wf m -> (forall e, preserves_wf (handler e)) ->
    preserves_wf (try_except m handler).
Proof.
  intros A m handler Hm Hh s r s' Hwf Hrun. unfold try_except in Hrun.
  destruct (m s) as [[a | e] s1] eqn:Hms.
  - inversion Hrun; subst. exact (Hm s _ s' Hwf Hms).
  - exact (Hh e s1 r s' (Hm s _ s1 Hwf Hms) Hrun).
Qed.

Lemma preserves_with_as :
  forall A (ctor : M St Handle) (body : Handle -> M St A)
         (exit : Handle -> M St unit),
    preserves_wf ctor -> (forall x, preserves_wf (body x)) ->
    (forall x, preserves_wf (exit x)) ->
    preserves_wf (with_as ctor body exit).
Proof.
  intros A ctor body exit Hc Hb He. unfold with_as.
  apply preserves_bind; [exact Hc |].
  intros x s r s' Hwf Hrun.
  destruct (body x s) as [[a | e] s1] eqn:Hbs.
  - refine (preserves_bind _ _ _ _ (He x) _ s1 r s' (Hb x s _ s1 Hwf Hbs) Hrun).
    intros; apply preserves_ret.
  - refine (preserves_bind _ _ _ _ (He x) _ s1 r s' (Hb x s _ s1 Hwf Hbs) Hrun).
    intros; apply preserves_raise.
Qed.

Lemma preserves_jumphost_connect :
  forall env hostname username password port,
    preserves_wf (jumphost_connect env hostname username password port).
Proof.
  intros * s r s' Hwf Hrun. exact (jumphost_connect_wf _ _ _ _ _ _ _ _ Hwf Hrun).
Qed.

Lemma preserves_attach_files :
  forall env attach_path names msg,
    preserves_wf (attach_files env attach_path names msg).
Proof.
  intros env attach_path names.
  induction names as [| filename rest IH]; intros msg; simpl.
  - apply preserves_ret.
  - destruct (path_exists env (Py.os_path_join attach_path filename)); simpl.
    + destruct (read_file env (Py.os_path_join attach_path filename)).
      * apply preserves_raise.
      * apply preserves_bind; [apply preserves_logger | intros; apply IH].
    + apply preserves_bind; [apply preserves_logger | intros; apply IH].
Qed.

Create HintDb wf_db.
#[local] Hint Resolve preserves_ret preserves_raise preserves_gets
  preserves_logger preserves_print preserves_call preserves_alloc
  preserves_jumphost_connect preserves_attach_files : wf_db.

(** Follow the structure of an operation down to its primitive steps. *)
Ltac wf_steps :=
  repeat first
    [ solve [auto with wf_db]
    | apply preserves_with_as; [| intros ? | intros ?]
    | apply preserves_try_except; [| intros ?]
    | apply preserves_bind; [| intros ?]
    | match goal with
      | |- preserves_wf (if ?c then _ else _) => destruct c
      | |- preserves_wf (match ?x with _ => _ end) => destruct x
      end ].

Lemma copy_file_local_to_remote_wf :
  forall env src_path dst_path use_jumphost,
    preserves_wf (copy_file_local_to_remote env src_path dst_path
                    use_jumphost).
Proof.
  intros. unfold copy_file_local_to_remote. cbv zeta. wf_steps.
Qed.

Lemma send_email_wf :
  forall env email_from email_to email_subject email_body greeting cc_emails
         destination_path attach_list smtp_server smtp_port,
    preserves_wf (send_email env email_from email_to email_subject email_body
                    greeting cc_emails destination_path attach_list
                    smtp_server smtp_port).
Proof.
  intros. unfold send_email, _get_config. cbv zeta. wf_steps.
Qed.

Lemma trace_here : forall (l : list Call), l = ([] ++ l)%list.
Proof. reflexivity. Qed.

Lemma trace_later :
  forall (c : Call) (l later base : list Call),
    l = (later ++ base)%list -> c :: l = ((c :: later) ++ base)%list.
Proof. intros * ->. reflexivity. Qed.

(** Exhibit the calls recorded on top of a given trace. *)
Ltac split_trace := repeat first [apply trace_here | apply trace_later].

Ltac fresh_handles :=
  repeat constructor; simpl; intuition lia.

(** C10. With a jump-host session cached and no target session, a call with
    a non-empty [dst_host] starts by constructing a new [SSHClient]; none of
    the library calls it makes touches the cached session (so that session is
    neither reused nor closed), and on success both slots hold the new
    handles, which differ from the cached one. *)
Theorem transport_connect_ignores_cached_jumphost :
  forall env hostname username password port dst_host dst_username
         dst_password dst_port s j0 r s',
    wf s ->
    _jumphost_client s = Some j0 ->
    _target_client s = None ->
    Py.truthy dst_host = true ->
    jumphost_transport_connect env hostname username password port dst_host
      dst_username dst_password dst_port s = (r, s') ->
    next_id s <> j0
    /\ (exists later,
          trace s' = (later ++ SSHClientNew (next_id s) :: trace s)%list
          /\ Forall (fun c => ~ In j0 (call_handles c))
                    (later ++ [SSHClientNew (next_id s)])%list)
    /\ (forall t j,
          r = Ret (t, j) ->
          j = next_id s /\ j <> j0 /\ t <> j0
          /\ _jumphost_client s' = Some j /\ _target_client s' = Some t
          /\ In (SSHConnect j hostname username password port None)
                (trace s')).
Proof.
  intros * [_ [Hj0 _]] Hj Ht Hdst Hrun.
  rewrite Hj in Hj0. simpl in Hj0.
  unfold jumphost_transport_connect in Hrun. rewrite Hdst in Hrun.
  run_ops. rewrite Ht in Hrun. simpl in Hrun.
  split; [lia |].
  repeat oracle_in Hrun; inversion Hrun; subst; clear Hrun; simpl;
    (split;
     [ eexists; split; [split_trace | fresh_handles]
     | intros t j Heq; inversion Heq; subst; intuition lia ]).
Qed.

Lemma transport_connect_ignores_cached_jumphost_witness :
  let s := set_jumphost_client (Some 0) (bump_id new_manager) in
  let run := jumphost_transport_connect env_ok (Some "jump") (Some "u")
               (Some "p") (Some 22%Z) (Some "target") (Some "u") (Some "p")
               (Some 22%Z) s in
  fst run = Ret (3, 1)
  /\ _jumphost_client (snd run) = Some 1
  /\ ~ In (SSHClose 0) (trace (snd run)).
Proof.
  intros s run.
  assert (Hwf : wf s) by (unfold wf, s; simpl; lia).
  destruct (transport_connect_ignores_cached_jumphost env_ok
              (Some "jump") (Some "u") (Some "p") (Some 22%Z) (Some "target")
              (Some "u") (Some "p") (Some 22%Z) s 0 (fst run) (snd run)
              Hwf eq_refl eq_refl eq_refl (surjective_pairing run))
    as [_ [_ Hok]].
  destruct (Hok 3 1 eq_refl) as [_ [_ [_ [Hslot _]]]].
  split; [reflexivity | split; [exact Hslot |]].
  vm_compute. intuition discriminate.
Defined.

(** ** The tunnel: cleanup in the handler *)

(** C1. On a new manager, with a target that refuses the login and a target
    client whose [close] raises, the error that reaches the caller is the one
    of the cleanup, and the jump-host client, constructed and connected, is
    never closed. *)
Theorem transport_connect_cleanup_error_escapes :
  let run := jumphost_transport_connect env_cleanup_raises (Some "jump")
               (Some "u") (Some "p") (Some 22%Z) (Some "target") (Some "u")
               (Some "p") (Some 22%Z) new_manager in
  fst run = Raise (OtherException "Socket is closed")
  /\ trace (snd run)
     = [SSHClose 2;
        SSHConnect 2 (Some "target") (Some "u") (Some "p") (Some 22%Z)
                   (Some 1);
        SetMissingHostKeyPolicy 2;
        SSHClientNew 2;
        OpenChannel 1 0 "direct-tcpip" (Some "target", Some 22%Z)
                    (Some "jump", Some 22%Z);
        SSHConnect 0 (Some "jump") (Some "u") (Some "p") (Some 22%Z) None;
        SetMissingHostKeyPolicy 0;
        LoadSystemHostKeys 0;
        SSHClientNew 0]
  /\ ~ In (SSHClose 0) (trace (snd run)).
Proof.
  vm_compute. intuition discriminate.
Qed.

(** When the cleanup calls return, the handler does what it is written for:
    with the same refused login, both clients are closed, target first, and
    the login error is the one raised. *)
Lemma transport_connect_cleanup_returns :
  let run := jumphost_transport_connect env_target_refuses (Some "jump")
               (Some "u") (Some "p") (Some 22%Z) (Some "target") (Some "u")
               (Some "p") (Some 22%Z) new_manager in
  fst run = Raise (AuthenticationException "Authentication failed.")
  /\ firstn 2 (trace (snd run)) = [SSHClose 0; SSHClose 2].
Proof.
  vm_compute. auto.
Qed.

(** The calls of a trace [l] recorded on top of [base]. *)
Ltac prefix_of l base :=
  lazymatch l with
  | base => constr:(@nil Call)
  | ?c :: ?l' => let p := prefix_of l' base in constr:(c :: p)
  end.

(** X9. When closing a client never raises, a failed
    [jumphost_transport_connect] raises the error of the library call that
    failed; after that call it only closes, and it closes every client it
    had constructed. *)
Lemma transport_connect_reraises_when_closes_return :
  forall env hostname username password port dst_host dst_username
         dst_password dst_port s e s',
    (forall hist h, fails env hist (SSHClose h) = None) ->
    Py.truthy dst_host = true ->
    jumphost_transport_connect env hostname username password port dst_host
      dst_username dst_password dst_port s = (Raise e, s') ->
    exists before c closes,
      fails env (before ++ trace s)%list c = Some e
      /\ trace s' = (closes ++ c :: before ++ trace s)%list
      /\ Forall (fun k => exists h, k = SSHClose h) closes
      /\ forall h, In (SSHClientNew h) before -> In (SSHClose h) closes.
Proof.
  intros * Hclose Hdst Hrun.
  unfold jumphost_transport_connect in Hrun. rewrite Hdst in Hrun.
  run_ops.
  destruct (_target_client s) eqn:Ht, (_jumphost_client s) eqn:Hj;
    simpl in Hrun; try discriminate;
    repeat first [ progress (rewrite ?Hclose in Hrun; simpl in Hrun)
                 | oracle_in Hrun ];
    inversion Hrun; subst; clear Hrun;
    match goal with
    | H : fails env ?hist ?c = Some e |- _ =>
        let p := prefix_of hist (trace s) in
        exists p, c; eexists; (split; [exact H |]); simpl
    end;
    (split; [split_trace |]);
    (split; [repeat constructor; eexists; reflexivity |]);
    intros k Hin;
    repeat (destruct Hin as [Hin | Hin];
            [ try discriminate Hin; inversion Hin; subst; simpl; auto 6 |]);
    try contradiction.
Qed.

(** ** Connect and open: the cached handle *)

Lemma junos_open_caches :
  forall env hostname username password port s d s1,
    junos_open_connection env hostname username password port s
    = (Ret d, s1) ->
    _junos_device s1 = Some d.
Proof.
  intros * Hrun. run_ops.
  destruct (_junos_device s) eqn:Hd; simpl in Hrun.
  - inversion Hrun; subst. exact Hd.
  - repeat oracle_in Hrun; try by_exc; inversion Hrun; subst; reflexivity.
Qed.

Lemma jumphost_connect_caches :
  forall env hostname username password port s c s1,
    jumphost_connect env hostname username password port s = (Ret c, s1) ->
    _jumphost_client s1 = Some c.
Proof.
  intros * Hrun. run_ops.
  destruct (_jumphost_client s) eqn:Hc; simpl in Hrun.
  - inversion Hrun; subst. exact Hc.
  - repeat oracle_in Hrun; try by_exc; inversion Hrun; subst; reflexivity.
Qed.

Lemma transport_connect_caches :
  forall env hostname username password port dst_host dst_username
         dst_password dst_port s t j s1,
    jumphost_transport_connect env hostname username password port dst_host
      dst_username dst_password dst_port s = (Ret (t, j), s1) ->
    _target_client s1 = Some t /\ _jumphost_client s1 = Some j.
Proof.
  intros * Hrun. unfold jumphost_transport_connect in Hrun.
  destruct (Py.truthy dst_host); simpl in Hrun; [| discriminate].
  run_ops.
  destruct (_target_client s) eqn:Ht, (_jumphost_client s) eqn:Hj;
    simpl in Hrun;
    repeat oracle_in Hrun; inversion Hrun; subst; simpl; auto.
Qed.

(** ** Close and disconnect *)

(** C3, amended. With a session cached, [junos_close_connection] calls the
    close of the device exactly once and returns without raising.  When that
    close returns, the slot is cleared; when it raises, the error is logged
    and the slot still holds the session.  [jumphost_disconnect] does the
    same with the jump-host client. *)
Theorem close_cached_is_best_effort :
  (forall env s d,
      _junos_device s = Some d ->
      exists s',
        junos_close_connection env s = (Ret tt, s')
        /\ trace s' = DeviceClose d :: trace s
        /\ match fails env (trace s) (DeviceClose d) with
           | None => _junos_device s' = None
           | Some e =>
               _junos_device s' = Some d
               /\ log s' = (ERROR, "Error closing Junos connection: "
                                   ++ str_exc e) :: log s
           end)
  /\ (forall env s c,
        _jumphost_client s = Some c ->
        exists s',
          jumphost_disconnect env s = (Ret tt, s')
          /\ trace s' = SSHClose c :: trace s
          /\ match fails env (trace s) (SSHClose c) with
             | None => _jumphost_client s' = None
             | Some e =>
                 _jumphost_client s' = Some c
                 /\ log s' = (ERROR, "Error closing jumphost connection: "
                                     ++ str_exc e) :: log s
             end).
Proof.
  split; intros * Hslot; run_ops; rewrite Hslot; simpl;
    oracle; eexists; (split; [reflexivity |]); simpl; auto.
Qed.

Lemma close_cached_is_best_effort_witness :
  let s1 := snd (junos_open_connection env_ok (Some "r1") (Some "u")
                   (Some "p") (Some 22%Z) new_manager) in
  let s2 := snd (jumphost_connect env_ok (Some "jump") (Some "u") (Some "p")
                   (Some 22%Z) new_manager) in
  (exists s', junos_close_connection env_ok s1 = (Ret tt, s')
              /\ _junos_device s' = None)
  /\ (exists s', jumphost_disconnect env_ok s2 = (Ret tt, s')
                 /\ _jumphost_client s' = None).
Proof.
  intros s1 s2.
  destruct close_cached_is_best_effort as [Hjunos Hjump].
  split.
  - destruct (Hjunos env_ok s1 0 eq_refl) as [s' [Hrun [_ Hslot]]].
    exists s'. split; [exact Hrun | exact Hslot].
  - destruct (Hjump env_ok s2 0 eq_refl) as [s' [Hrun [_ Hslot]]].
    exists s'. split; [exact Hrun | exact Hslot].
Defined.

(** C3 as stated fails: when the close of the device raises,
    [junos_close_connection] returns with the session still cached. *)
Lemma close_raises_keeps_slot :
  let s1 := snd (junos_open_connection env_ok (Some "r1") (Some "u")
                   (Some "p") (Some 22%Z) new_manager) in
  _junos_device s1 = Some 0
  /\ fst (junos_close_connection env_close_raises s1) = Ret tt
  /\ _junos_device (snd (junos_close_connection env_close_raises s1))
     = Some 0.
Proof.
  vm_compute. auto.
Qed.

(** C4, amended. With no device cached, [junos_close_connection] only logs a
    warning; with no jump-host client cached, so does [jumphost_disconnect];
    with neither a target nor a jump-host client cached,
    [jumphost_transport_disconnect] returns and changes nothing, the log
    included.  None of them raises or makes a library call. *)
Theorem close_without_session :
  (forall env s,
      _junos_device s = None ->
      junos_close_connection env s
      = (Ret tt, add_log (WARNING, "No active Junos connection to close") s))
  /\ (forall env s,
        _jumphost_client s = None ->
        jumphost_disconnect env s
        = (Ret tt,
           add_log (WARNING, "No active jumphost connection to close") s))
  /\ (forall env s,
        _target_client s = None ->
        _jumphost_client s = None ->
        jumphost_transport_disconnect env s = (Ret tt, s)).
Proof.
  split; [| split]; intros * Hslot; run_ops.
  - rewrite Hslot. reflexivity.
  - rewrite Hslot. reflexivity.
  - intros Hjump. rewrite Hslot. simpl. rewrite Hjump. reflexivity.
Qed.

Lemma close_without_session_witness :
  let s0 := new_manager in
  junos_close_connection env_close_raises s0
  = (Ret tt, add_log (WARNING, "No active Junos connection to close") s0)
  /\ jumphost_disconnect env_close_raises s0
     = (Ret tt,
        add_log (WARNING, "No active jumphost connection to close") s0)
  /\ jumphost_transport_disconnect env_close_raises s0 = (Ret tt, s0).
Proof.
  intros s0.
  destruct close_without_session as [Hjunos [Hjump Htunnel]].
  split; [| split].
  - apply (Hjunos env_close_raises s0). reflexivity.
  - apply (Hjump env_close_raises s0). reflexivity.
  - apply (Htunnel env_close_raises s0); reflexivity.
Defined.

(** C4 as stated fails: with nothing cached, [jumphost_transport_disconnect]
    logs nothing at all. *)
Lemma transport_disconnect_logs_no_warning :
  let run := jumphost_transport_disconnect env_ok new_manager in
  fst run = Ret tt
  /\ log (snd run) = []
  /\ ~ exists msg, In (WARNING, msg) (log (snd run)).
Proof.
  vm_compute. split; [reflexivity | split; [reflexivity |]].
  intros [msg []].
Qed.

(** ** Upload: validation of the paths *)

(** C8. [copy_file_local_to_remote] returns [False], after logging an error,
    when either path is [None] or empty; with both paths given and a source
    that does not exist it raises [FileNotFoundError] and leaves the whole
    state as it was, so that no library call, and no connection to the jump
    host, has been made. *)
Theorem copy_local_to_remote_validates :
  forall env src_path dst_path use_jumphost s,
    (Py.truthy src_path = false \/ Py.truthy dst_path = false ->
     copy_file_local_to_remote env src_path dst_path use_jumphost s
     = (Ret false,
        add_log (ERROR, "Source and destination paths must be provided") s))
    /\ (Py.truthy src_path = true ->
        Py.truthy dst_path = true ->
        path_exists env (Py.fmt src_path) = false ->
        copy_file_local_to_remote env src_path dst_path use_jumphost s
        = (Raise (FileNotFoundError
                    ("Source file not found: " ++ Py.fmt src_path)), s)).
Proof.
  intros. unfold copy_file_local_to_remote. split.
  - intros [H | H]; rewrite H; simpl.
    + reflexivity.
    + rewrite orb_true_r. reflexivity.
  - intros Hsrc Hdst Hmissing. rewrite Hsrc, Hdst, Hmissing. reflexivity.
Qed.

Lemma copy_local_to_remote_validates_witness :
  let s0 := new_manager in
  copy_file_local_to_remote env_ok (Some "") (Some "/tmp/x") true s0
  = (Ret false,
     add_log (ERROR, "Source and destination paths must be provided") s0)
  /\ copy_file_local_to_remote env_ok (Some "/var/tmp/none.txt")
       (Some "/tmp/x") true s0
     = (Raise (FileNotFoundError
                 "Source file not found: /var/tmp/none.txt"), s0).
Proof.
  intros s0. split.
  - apply (proj1 (copy_local_to_remote_validates env_ok (Some "")
                    (Some "/tmp/x") true s0)).
    left. reflexivity.
  - apply (proj2 (copy_local_to_remote_validates env_ok
                    (Some "/var/tmp/none.txt") (Some "/tmp/x") true s0));
      reflexivity.
Defined.

(** With both paths given and an existing source, the upload goes through the
    jump host: the client is connected, then the copy runs. *)
Example copy_local_to_remote_runs :
  let run := copy_file_local_to_remote env_ok (Some "/var/tmp/report.txt")
               (Some "/tmp/report.txt") true new_manager in
  fst run = Ret true
  /\ trace (snd run)
     = [SCPClose 1; SCPPut 1 "/var/tmp/report.txt" "/tmp/report.txt";
        SCPClientNew 1 0; SSHConnect 0 None None None (Some 22%Z) None;
        SetMissingHostKeyPolicy 0; LoadSystemHostKeys 0; SSHClientNew 0].
Proof.
  vm_compute. auto.
Qed.

(** ** E-mail: required parameters *)

Lemma append_assoc :
  forall a b c : string, (a ++ b) ++ c = a ++ b ++ c.
Proof.
  induction a as [| ch a IH]; intros; simpl; [| rewrite IH]; reflexivity.
Qed.

Lemma append_empty_r : forall a : string, a ++ "" = a.
Proof.
  induction a as [| ch a IH]; simpl; [| rewrite IH]; reflexivity.
Qed.

Lemma occurs_after :
  forall x pre s, occurs x s -> occurs x (pre ++ s).
Proof.
  intros x pre s [p [q ->]]. exists (pre ++ p), q.
  rewrite append_assoc. reflexivity.
Qed.

Lemma join_occurs :
  forall sep x l, In x l -> occurs x (Py.join sep l).
Proof.
  intros sep x l. induction l as [| y l IH]; intros Hin; [destruct Hin |].
  destruct l as [| z l].
  - destruct Hin as [-> | []]. exists "", "". simpl.
    rewrite append_empty_r. reflexivity.
  - destruct Hin as [-> | Hin].
    + exists "", (sep ++ Py.join sep (z :: l)). reflexivity.
    + change (Py.join sep (y :: z :: l))
        with (y ++ sep ++ Py.join sep (z :: l)).
      apply occurs_after, occurs_after, IH, Hin.
Qed.

(** A name is on the list of the comprehension exactly when its value is
    falsy: by cases on the five values. *)
Ltac listed_iff_empty :=
  unfold missing_of, required; simpl;
  repeat match goal with
         | |- context [Py.truthy ?v] => destruct (Py.truthy v)
         end;
  simpl;
  (split;
   [ intros H; repeat (destruct H as [H | H]; try discriminate H);
     try reflexivity; try contradiction
   | intros H; try discriminate H; auto 6 ]).

(** C6. When at least one of the five required parameters of [send_email] is
    [None] or empty, the call raises [ValueError] and leaves the whole state
    as it was (nothing is composed, logged or sent).  The message is the
    fixed prefix followed by the comma-separated list of the missing names;
    a required name is on that list exactly when its value is empty, and
    every name on the list occurs in the message. *)
Theorem send_email_names_every_missing_field :
  forall env email_from email_to email_subject email_body greeting cc_emails
         destination_path attach_list smtp_server smtp_port s,
    Py.truthy email_from = false \/ Py.truthy email_to = false
    \/ Py.truthy email_subject = false \/ Py.truthy greeting = false
    \/ Py.truthy email_body = false ->
    exists missing,
      send_email env email_from email_to email_subject email_body greeting
        cc_emails destination_path attach_list smtp_server smtp_port s
      = (Raise (ValueError ("Missing required email parameters: "
                            ++ Py.join ", " missing)), s)
      /\ (In "email_from" missing <-> Py.truthy email_from = false)
      /\ (In "email_to" missing <-> Py.truthy email_to = false)
      /\ (In "email_subject" missing <-> Py.truthy email_subject = false)
      /\ (In "greeting" missing <-> Py.truthy greeting = false)
      /\ (In "email_body" missing <-> Py.truthy email_body = false)
      /\ (forall name,
            In name missing ->
            occurs name ("Missing required email parameters: "
                         ++ Py.join ", " missing)).
Proof.
  intros * Hempty.
  exists (missing_of (required email_from email_to email_subject greeting
                        email_body)).
  split; [| split; [| split; [| split; [| split; [| split]]]]].
  - unfold send_email, Py.all. simpl.
    destruct (Py.truthy email_from), (Py.truthy email_to),
      (Py.truthy email_subject), (Py.truthy greeting),
      (Py.truthy email_body); simpl; try reflexivity.
    intuition discriminate.
  - clear Hempty. listed_iff_empty.
  - clear Hempty. listed_iff_empty.
  - clear Hempty. listed_iff_empty.
  - clear Hempty. listed_iff_empty.
  - clear Hempty. listed_iff_empty.
  - intros name Hin. apply occurs_after, join_occurs, Hin.
Qed.

Lemma send_email_names_every_missing_field_witness :
  exists missing,
    send_email env_ok None (Some "") (Some "Report") (Some "See attachment.")
      (Some "Hello,") None None None "localhost" 25%Z new_manager
    = (Raise (ValueError ("Missing required email parameters: "
                          ++ Py.join ", " missing)), new_manager)
    /\ In "email_from" missing /\ In "email_to" missing
    /\ ~ In "email_subject" missing.
Proof.
  destruct (send_email_names_every_missing_field env_ok None (Some "")
              (Some "Report") (Some "See attachment.") (Some "Hello,") None
              None None "localhost" 25%Z new_manager
              (or_introl eq_refl))
    as [missing [Hrun [Hfrom [Hto [Hsubject _]]]]].
  exists missing. split; [exact Hrun |].
  split; [apply Hfrom; reflexivity |].
  split; [apply Hto; reflexivity |].
  intros Hin. apply Hsubject in Hin. discriminate Hin.
Defined.

(** The message for a call without sender and recipient. *)
Example send_email_missing_sender_and_recipient :
  fst (send_email env_ok None (Some "") (Some "Report")
         (Some "See attachment.") (Some "Hello,") None None None "localhost"
         25%Z new_manager)
  = Raise (ValueError
             "Missing required email parameters: email_from, email_to").
Proof.
  vm_compute. reflexivity.
Qed.

(** ** E-mail: attachments *)

Lemma add_logs_add_logs :
  forall a b s, add_logs a (add_logs b s) = add_logs (a ++ b) s.
Proof.
  intros. unfold add_logs. simpl. rewrite app_assoc. reflexivity.
Qed.

Lemma add_logs_nil : forall s, add_logs [] s = s.
Proof. intros []. reflexivity. Qed.







(** ** Teardown *)

(** X1. [jumphost_transport_disconnect] returns in every state and every
    environment. *)
Theorem transport_disconnect_never_raises :
  forall env s, fst (jumphost_transport_disconnect env s) = Ret tt.
Proof.
  intros. run_ops.
  destruct (_target_client s) eqn:Ht; simpl;
    repeat first
      [ oracle | progress (destruct (_jumphost_client s) eqn:Hj; simpl) ];
    reflexivity.
Qed.

(** X2. With both sessions cached, [jumphost_transport_disconnect] closes
    the target client, then the jump-host client, whether or not the first
    close raised; a slot is cleared exactly when the close of its client
    returned, and the device slot is left alone. *)
Theorem transport_disconnect_closes_target_then_jumphost :
  forall env s t j,
    _target_client s = Some t ->
    _jumphost_client s = Some j ->
    exists s',
      jumphost_transport_disconnect env s = (Ret tt, s')
      /\ trace s' = SSHClose j :: SSHClose t :: trace s
      /\ _target_client s'
         = match fails env (trace s) (SSHClose t) with
           | None => None
           | Some _ => Some t
           end
      /\ _jumphost_client s'
         = match fails env (SSHClose t :: trace s) (SSHClose j) with
           | None => None
           | Some _ => Some j
           end
      /\ _junos_device s' = _junos_device s.
Proof.
  intros * Ht Hj. run_ops. rewrite Ht. simpl.
  oracle; rewrite Hj; simpl; oracle; eexists;
    (split; [reflexivity |]); simpl; auto.
Qed.

Lemma transport_disconnect_closes_target_then_jumphost_witness :
  let s := snd (jumphost_transport_connect env_ok (Some "jump") (Some "u")
                  (Some "p") (Some 22%Z) (Some "target") (Some "u")
                  (Some "p") (Some 22%Z) new_manager) in
  exists s',
    jumphost_transport_disconnect env_close_raises s = (Ret tt, s')
    /\ firstn 2 (trace s') = [SSHClose 0; SSHClose 2]
    /\ _target_client s' = Some 2
    /\ _jumphost_client s' = Some 0.
Proof.
  intros s.
  destruct (transport_disconnect_closes_target_then_jumphost
              env_close_raises s 2 0 eq_refl eq_refl)
    as [s' [Hrun [Htrace [Ht [Hj _]]]]].
  exists s'. split; [exact Hrun |]. rewrite Htrace.
  split; [reflexivity |]. split; [exact Ht | exact Hj].
Defined.

(** X3. [close_all_connections], and with it the exit of a [with] block,
    returns in every state and every environment.  It calls the close of
    every cached session, the device first, then the target client, then
    the jump-host client, whatever the earlier closes did, and it ends with
    [jumphost_disconnect]: a jump-host client whose close raised is closed
    a second time, and otherwise the warning that no jump-host connection
    is active is logged.  A slot is cleared exactly when a close of its
    session returned; no slot is given a new handle. *)
Theorem close_all_connections_attempts_every_close :
  forall env s exc_val,
    let run := close_all_connections env s in
    let after_device :=
      (match _junos_device s with
       | Some d => [DeviceClose d]
       | None => []
       end ++ trace s)%list in
    let after_target :=
      (match _target_client s with
       | Some t => [SSHClose t]
       | None => []
       end ++ after_device)%list in
    let after_jumphost :=
      (match _jumphost_client s with
       | Some j => [SSHClose j]
       | None => []
       end ++ after_target)%list in
    __exit__ env exc_val s = run
    /\ fst run = Ret tt
    /\ after_jumphost = (teardown_closes s ++ trace s)%list
    /\ trace (snd run)
       = match _jumphost_client s with
         | Some j =>
             match fails env after_target (SSHClose j) with
             | Some _ => SSHClose j :: after_jumphost
             | None => after_jumphost
             end
         | None => after_jumphost
         end
    /\ _junos_device (snd run)
       = match _junos_device s with
         | Some d =>
             match fails env (trace s) (DeviceClose d) with
             | Some _ => Some d
             | None => None
             end
         | None => None
         end
    /\ _target_client (snd run)
       = match _target_client s with
         | Some t =>
             match fails env after_device (SSHClose t) with
             | Some _ => Some t
             | None => None
             end
         | None => None
         end
    /\ _jumphost_client (snd run)
       = match _jumphost_client s with
         | Some j =>
             match fails env after_target (SSHClose j),
                   fails env after_jumphost (SSHClose j) with
             | Some _, Some _ => Some j
             | _, _ => None
             end
         | None => None
         end
    /\ exists earlier,
         log (snd run)
         = (INFO, "All connections closed")
           :: match _jumphost_client s with
              | Some j =>
                  match fails env after_target (SSHClose j),
                        fails env after_jumphost (SSHClose j) with
                  | Some _, Some e =>
                      (ERROR,
                       "Error closing jumphost connection: " ++ str_exc e)
                  | Some _, None => (INFO, "Jumphost connection closed")
                  | None, _ =>
                      (WARNING, "No active jumphost connection to close")
                  end
              | None => (WARNING, "No active jumphost connection to close")
              end
           :: earlier.
Proof.
  intros env s exc_val run after_device after_target after_jumphost.
  split; [reflexivity |].
  subst run after_jumphost after_target after_device.
  destruct (close_all_connections env s) as [r s'] eqn:Hrun.
  unfold close_all_connections in Hrun. unfold teardown_closes.
  run_ops.
  destruct (_junos_device s) eqn:Hd, (_target_client s) eqn:Ht,
    (_jumphost_client s) eqn:Hj; simpl in Hrun; simpl;
    repeat first [ progress (rewrite ?Hd, ?Ht, ?Hj in Hrun; simpl in Hrun)
                 | oracle_in Hrun ];
    inversion Hrun; subst; clear Hrun; simpl; rewrite ?Hd, ?Ht, ?Hj;
    repeat (split; [reflexivity |]);
    eexists; reflexivity.
Qed.

(** A tunnel whose clients refuse to close: the jump-host client is closed
    twice, and both sessions stay cached. *)
Example close_all_connections_closes_jumphost_twice :
  let s := snd (jumphost_transport_connect env_ok (Some "jump") (Some "u")
                  (Some "p") (Some 22%Z) (Some "target") (Some "u")
                  (Some "p") (Some 22%Z) new_manager) in
  let run := close_all_connections env_close_raises s in
  fst run = Ret tt
  /\ firstn 3 (trace (snd run)) = [SSHClose 0; SSHClose 0; SSHClose 2]
  /\ slots (snd run) = (None, Some 0, Some 2)
  /\ firstn 2 (log (snd run))
     = [(INFO, "All connections closed");
        (ERROR, "Error closing jumphost connection: Socket is closed")].
Proof.
  vm_compute. auto.
Qed.

Lemma close_all_connections_idle :
  forall env s,
    slots s = (None, None, None) ->
    exists s',
      close_all_connections env s = (Ret tt, s')
      /\ trace s' = trace s /\ slots s' = (None, None, None).
Proof.
  intros env s Hslots. unfold slots in *.
  assert (Hd : _junos_device s = None) by congruence.
  assert (Hj : _jumphost_client s = None) by congruence.
  assert (Ht : _target_client s = None) by congruence.
  clear Hslots.
  unfold close_all_connections. run_ops.
  repeat (progress (rewrite ?Hd, ?Ht, ?Hj; simpl)).
  eexists. split; [reflexivity |]. simpl. rewrite Hd, Ht, Hj. auto.
Qed.

(** X4. When no close raises, [close_all_connections] closes each cached
    session once and leaves the three slots empty; a second teardown then
    makes no library call at all. *)
Theorem close_all_connections_clears_every_slot :
  forall env env' s,
    (forall hist c, is_close c = true -> fails env hist c = None) ->
    let s' := snd (close_all_connections env s) in
    slots s' = (None, None, None)
    /\ trace s' = (teardown_closes s ++ trace s)%list
    /\ fst (close_all_connections env' s') = Ret tt
    /\ trace (snd (close_all_connections env' s')) = trace s'
    /\ slots (snd (close_all_connections env' s')) = (None, None, None).
Proof.
  intros env env' s Hclose s'.
  assert (Hfirst : slots s' = (None, None, None)
                   /\ trace s' = (teardown_closes s ++ trace s)%list).
  { subst s'.
    destruct (close_all_connections env s) as [r s1] eqn:Hrun.
    unfold close_all_connections in Hrun. unfold teardown_closes, slots.
    run_ops.
    destruct (_junos_device s) eqn:Hd, (_target_client s) eqn:Ht,
      (_jumphost_client s) eqn:Hj; simpl in Hrun;
      repeat first
        [ progress (rewrite ?Hd, ?Ht, ?Hj in Hrun; simpl in Hrun)
        | rewrite Hclose in Hrun by reflexivity; simpl in Hrun ];
      inversion Hrun; subst; clear Hrun; simpl; rewrite ?Hd, ?Ht, ?Hj;
      split; reflexivity. }
  destruct Hfirst as [Hslots Htrace].
  destruct (close_all_connections_idle env' s' Hslots)
    as [s2 [Hrun [Htrace2 Hslots2]]].
  rewrite Hrun. simpl. auto.
Qed.

Lemma close_all_connections_clears_every_slot_witness :
  let s := snd (jumphost_transport_connect env_ok (Some "jump") (Some "u")
                  (Some "p") (Some 22%Z) (Some "target") (Some "u")
                  (Some "p") (Some 22%Z) new_manager) in
  let s' := snd (close_all_connections env_ok s) in
  slots s' = (None, None, None)
  /\ firstn 2 (trace s') = [SSHClose 0; SSHClose 2]
  /\ trace (snd (close_all_connections env_close_raises s')) = trace s'.
Proof.
  intros s s'.
  destruct (close_all_connections_clears_every_slot env_ok env_close_raises
              s (fun _ _ _ => eq_refl))
    as [Hslots [_ [_ [Hagain _]]]].
  split; [exact Hslots |]. split; [vm_compute; reflexivity | exact Hagain].
Defined.

(** ** Connecting: what reaches the libraries *)





(** X7. When [jumphost_transport_connect] builds a tunnel and returns, the
    library has seen, in this order: a new jump-host client with system
    host keys and host-key policy, its connection with the jump-host
    arguments, a [direct-tcpip] channel on its transport from [(hostname,
    port)] to [(dst_host, dst_port)], a new target client with host-key
    policy, and its connection with the target arguments over that channel.
    Both handles are new and cached. *)
Theorem transport_connect_wires_tunnel :
  forall env hostname username password port dst_host dst_username
         dst_password dst_port s t j s',
    _target_client s = None \/ _jumphost_client s = None ->
    jumphost_transport_connect env hostname username password port dst_host
      dst_username dst_password dst_port s = (Ret (t, j), s') ->
    let ch := S (next_id s) in
    j = next_id s /\ t = S (S (next_id s))
    /\ trace s'
       = SSHConnect t dst_host dst_username dst_password dst_port (Some ch)
         :: SetMissingHostKeyPolicy t :: SSHClientNew t
         :: OpenChannel ch j "direct-tcpip" (dst_host, dst_port)
                        (hostname, port)
         :: SSHConnect j hostname username password port None
         :: SetMissingHostKeyPolicy j :: LoadSystemHostKeys j
         :: SSHClientNew j :: trace s
    /\ _target_client s' = Some t /\ _jumphost_client s' = Some j
    /\ _junos_device s' = _junos_device s.
Proof.
  intros * Hnone Hrun ch. subst ch.
  unfold jumphost_transport_connect in Hrun.
  destruct (Py.truthy dst_host); simpl in Hrun; [| discriminate].
  run_ops.
  destruct (_target_client s) eqn:Ht, (_jumphost_client s) eqn:Hj;
    simpl in Hrun;
    try (destruct Hnone; discriminate);
    repeat oracle_in Hrun; inversion Hrun; subst; clear Hrun; simpl;
    repeat split; reflexivity.
Qed.

Lemma transport_connect_wires_tunnel_witness :
  let run := jumphost_transport_connect env_ok (Some "jump") (Some "u")
               (Some "p") (Some 22%Z) (Some "target") (Some "v") (Some "q")
               (Some 830%Z) new_manager in
  fst run = Ret (2, 0)
  /\ In (OpenChannel 1 0 "direct-tcpip" (Some "target", Some 830%Z)
           (Some "jump", Some 22%Z)) (trace (snd run))
  /\ In (SSHConnect 2 (Some "target") (Some "v") (Some "q") (Some 830%Z)
           (Some 1)) (trace (snd run)).
Proof.
  intros run.
  assert (Hrun : run = (Ret (2, 0), snd run)) by (vm_compute; reflexivity).
  destruct (transport_connect_wires_tunnel env_ok (Some "jump") (Some "u")
              (Some "p") (Some 22%Z) (Some "target") (Some "v") (Some "q")
              (Some 830%Z) new_manager 2 0 (snd run) (or_introl eq_refl)
              Hrun)
    as [_ [_ [Htrace _]]].
  split; [rewrite Hrun; reflexivity |]. rewrite Htrace.
  split; simpl; auto 10.
Defined.

(** X8. Whatever the state and the outcome, [jumphost_connect] and
    [jumphost_transport_connect] never connect an SSH client on which they
    have not set the missing-host-key policy first. *)
Theorem ssh_connect_follows_host_key_policy :
  forall env hostname username password port dst_host dst_username
         dst_password dst_port s,
    (exists new,
        trace (snd (jumphost_connect env hostname username password port s))
        = (new ++ trace s)%list
        /\ policy_before_connect new = true)
    /\ (exists new,
          trace (snd (jumphost_transport_connect env hostname username
                        password port dst_host dst_username dst_password
                        dst_port s))
          = (new ++ trace s)%list
          /\ policy_before_connect new = true).
Proof.
  intros. split.
  - destruct (jumphost_connect env hostname username password port s)
      as [r s'] eqn:Hrun.
    run_ops.
    destruct (_jumphost_client s) eqn:Hc; simpl in Hrun;
      repeat oracle_in Hrun; try by_exc; inversion Hrun; subst; clear Hrun;
      simpl; eexists; (split; [split_trace |]); simpl;
      rewrite ?Nat.eqb_refl; reflexivity.
  - destruct (jumphost_transport_connect env hostname username password
                port dst_host dst_username dst_password dst_port s)
      as [r s'] eqn:Hrun.
    unfold jumphost_transport_connect in Hrun.
    destruct (Py.truthy dst_host); simpl in Hrun;
      [| inversion Hrun; subst; exists []; split; reflexivity].
    run_ops.
    destruct (_target_client s) eqn:Ht, (_jumphost_client s) eqn:Hj;
      simpl in Hrun;
      repeat oracle_in Hrun; inversion Hrun; subst; clear Hrun;
      simpl; eexists; (split; [split_trace |]); simpl;
      rewrite ?Nat.eqb_refl; simpl; rewrite ?Nat.eqb_refl; reflexivity.
Qed.

(** ** Connect, then disconnect *)

(** X10. A session opened by a connect operation is closed by the matching
    disconnect: when the close returns, the slot is empty again, and for
    the tunnel the target client is closed before the jump-host client. *)
Theorem connect_then_disconnect :
  (forall env env' hostname username password port s d s1,
      junos_open_connection env hostname username password port s
      = (Ret d, s1) ->
      fails env' (trace s1) (DeviceClose d) = None ->
      exists s2,
        junos_close_connection env' s1 = (Ret tt, s2)
        /\ _junos_device s2 = None
        /\ trace s2 = DeviceClose d :: trace s1)
  /\ (forall env env' hostname username password port s c s1,
        jumphost_connect env hostname username password port s
        = (Ret c, s1) ->
        fails env' (trace s1) (SSHClose c) = None ->
        exists s2,
          jumphost_disconnect env' s1 = (Ret tt, s2)
          /\ _jumphost_client s2 = None
          /\ trace s2 = SSHClose c :: trace s1)
  /\ (forall env env' hostname username password port dst_host dst_username
             dst_password dst_port s t j s1,
        jumphost_transport_connect env hostname username password port
          dst_host dst_username dst_password dst_port s = (Ret (t, j), s1) ->
        fails env' (trace s1) (SSHClose t) = None ->
        fails env' (SSHClose t :: trace s1) (SSHClose j) = None ->
        exists s2,
          jumphost_transport_disconnect env' s1 = (Ret tt, s2)
          /\ _target_client s2 = None /\ _jumphost_client s2 = None
          /\ trace s2 = SSHClose j :: SSHClose t :: trace s1).
Proof.
  split; [| split].
  - intros * Hrun Hclose. apply junos_open_caches in Hrun.
    unfold junos_close_connection, bind, gets, try_except, call, modify,
      logger. simpl.
    rewrite Hrun. simpl. rewrite Hclose. simpl.
    eexists. repeat split; reflexivity.
  - intros * Hrun Hclose. apply jumphost_connect_caches in Hrun.
    unfold jumphost_disconnect, bind, gets, try_except, call, modify,
      logger. simpl.
    rewrite Hrun. simpl. rewrite Hclose. simpl.
    eexists. repeat split; reflexivity.
  - intros * Hrun Hct Hcj. apply transport_connect_caches in Hrun.
    destruct Hrun as [Ht Hj].
    unfold jumphost_transport_disconnect, bind, gets, try_except, call,
      modify, logger, ret. simpl.
    rewrite Ht. simpl. rewrite Hct. simpl. rewrite Hj. simpl.
    rewrite Hcj. simpl.
    eexists. repeat split; reflexivity.
Qed.

Lemma connect_then_disconnect_witness :
  let s1 := snd (junos_open_connection env_ok (Some "r1") (Some "u")
                   (Some "p") (Some 22%Z) new_manager) in
  let s2 := snd (jumphost_connect env_ok (Some "jump") (Some "u") (Some "p")
                   (Some 22%Z) new_manager) in
  let s3 := snd (jumphost_transport_connect env_ok (Some "jump") (Some "u")
                   (Some "p") (Some 22%Z) (Some "target") (Some "u")
                   (Some "p") (Some 22%Z) new_manager) in
  (exists s', junos_close_connection env_ok s1 = (Ret tt, s')
              /\ _junos_device s' = None)
  /\ (exists s', jumphost_disconnect env_ok s2 = (Ret tt, s')
                 /\ _jumphost_client s' = None)
  /\ (exists s', jumphost_transport_disconnect env_ok s3 = (Ret tt, s')
                 /\ firstn 2 (trace s') = [SSHClose 0; SSHClose 2]).
Proof.
  intros s1 s2 s3.
  destruct connect_then_disconnect as [Hjunos [Hjump Htunnel]].
  split; [| split].
  - destruct (Hjunos env_ok env_ok (Some "r1") (Some "u") (Some "p")
                (Some 22%Z) new_manager 0 s1)
      as [s' [Hrun [Hslot _]]];
      [vm_compute; reflexivity | reflexivity |].
    exists s'. split; assumption.
  - destruct (Hjump env_ok env_ok (Some "jump") (Some "u") (Some "p")
                (Some 22%Z) new_manager 0 s2)
      as [s' [Hrun [Hslot _]]];
      [vm_compute; reflexivity | reflexivity |].
    exists s'. split; assumption.
  - destruct (Htunnel env_ok env_ok (Some "jump") (Some "u") (Some "p")
                (Some 22%Z) (Some "target") (Some "u") (Some "p")
                (Some 22%Z) new_manager 2 0 s3)
      as [s' [Hrun [_ [_ Htrace]]]];
      [vm_compute; reflexivity | reflexivity | reflexivity |].
    exists s'. split; [exact Hrun |]. rewrite Htrace. reflexivity.
Defined.

(** The error of a failed tunnel, when closing works. *)
Lemma transport_connect_reraises_when_closes_return_witness :
  let run := jumphost_transport_connect env_target_refuses (Some "jump")
               (Some "u") (Some "p") (Some 22%Z) (Some "target") (Some "u")
               (Some "p") (Some 22%Z) new_manager in
  exists before failed closes,
    fails env_target_refuses before failed
    = Some (AuthenticationException "Authentication failed.")
    /\ trace (snd run) = (closes ++ failed :: before)%list
    /\ Forall (fun k => exists h, k = SSHClose h) closes.
Proof.
  intros run.
  destruct (transport_connect_reraises_when_closes_return env_target_refuses
              (Some "jump") (Some "u") (Some "p") (Some 22%Z)
              (Some "target") (Some "u") (Some "p") (Some 22%Z) new_manager
              (AuthenticationException "Authentication failed.") (snd run)
              (fun _ _ => eq_refl) eq_refl)
    as [before [failed [closes [Hfail [Htrace [Hcloses _]]]]]].
  - vm_compute. reflexivity.
  - exists (before ++ trace new_manager)%list, failed, closes.
    split; [exact Hfail |]. split; [exact Htrace | exact Hcloses].
Defined.

(** ** The shell session *)

(** X21. With a device cached, [connect_junos_shell] wraps it: no library
    call is made and nothing changes but the log. *)
Theorem connect_junos_shell_wraps_cached_device :
  forall env s d,
    _junos_device s = Some d ->
    connect_junos_shell env s
    = (Ret (mkStartShell d),
       add_log (INFO, "Connected to shell mode of " ++ hostname_of env d)
         (add_log (INFO, "Junos connection already open") s)).
Proof.
  intros * Hd. unfold connect_junos_shell. run_ops. rewrite Hd. reflexivity.
Qed.

Lemma connect_junos_shell_wraps_cached_device_witness :
  let s := snd (junos_open_connection env_ok (Some "r1") (Some "u")
                  (Some "p") (Some 22%Z) new_manager) in
  fst (connect_junos_shell env_close_raises s) = Ret (mkStartShell 0)
  /\ trace (snd (connect_junos_shell env_close_raises s)) = trace s.
Proof.
  intros s.
  rewrite (connect_junos_shell_wraps_cached_device env_close_raises s 0
             eq_refl).
  split; reflexivity.
Defined.



(** ** The jump-host slot is shared with the tunnel *)

(** X11. After a tunnel is built, [jumphost_connect] returns the jump-host
    client of the tunnel without connecting anything, and
    [jumphost_disconnect] closes that client and empties its slot while the
    target client, whose transport runs through it, stays cached and is not
    closed. *)
Theorem tunnel_shares_jumphost_slot :
  forall env env' hostname username password port dst_host dst_username
         dst_password dst_port hostname' username' password' port' s t j s1,
    jumphost_transport_connect env hostname username password port dst_host
      dst_username dst_password dst_port s = (Ret (t, j), s1) ->
    fails env' (trace s1) (SSHClose j) = None ->
    jumphost_connect env' hostname' username' password' port' s1
    = (Ret j, add_log (INFO, "Jumphost connection already open") s1)
    /\ exists s2,
         jumphost_disconnect env' s1 = (Ret tt, s2)
         /\ trace s2 = SSHClose j :: trace s1
         /\ _jumphost_client s2 = None
         /\ _target_client s2 = Some t.
Proof.
  intros * Hrun Hclose. apply transport_connect_caches in Hrun.
  destruct Hrun as [Ht Hj]. split.
  - unfold jumphost_connect, bind, gets. simpl. rewrite Hj. reflexivity.
  - unfold jumphost_disconnect, bind, gets, try_except, call, modify,
      logger. simpl.
    rewrite Hj. simpl. rewrite Hclose. simpl.
    eexists. repeat split; try reflexivity. simpl. exact Ht.
Qed.

Lemma tunnel_shares_jumphost_slot_witness :
  let s1 := snd (jumphost_transport_connect env_ok (Some "jump") (Some "u")
                   (Some "p") (Some 22%Z) (Some "target") (Some "u")
                   (Some "p") (Some 22%Z) new_manager) in
  fst (jumphost_connect env_ok None None None None s1) = Ret 0
  /\ exists s2,
       jumphost_disconnect env_ok s1 = (Ret tt, s2)
       /\ _jumphost_client s2 = None /\ _target_client s2 = Some 2.
Proof.
  intros s1.
  destruct (tunnel_shares_jumphost_slot env_ok env_ok (Some "jump")
              (Some "u") (Some "p") (Some 22%Z) (Some "target") (Some "u")
              (Some "p") (Some 22%Z) None None None None new_manager 2 0 s1)
    as [Hconnect [s2 [Hrun [_ [Hj Ht]]]]];
    [vm_compute; reflexivity | reflexivity |].
  split; [rewrite Hconnect; reflexivity |].
  exists s2. split; [exact Hrun |]. split; assumption.
Defined.

(** ** Upload: the transfer *)

(** X12. With both paths given and an existing source, an upload that is
    asked not to use the jump host does nothing but log an error and return
    [False]. *)
Theorem copy_local_to_remote_direct_not_implemented :
  forall env src_path dst_path s,
    Py.truthy src_path = true ->
    Py.truthy dst_path = true ->
    path_exists env (Py.fmt src_path) = true ->
    copy_file_local_to_remote env src_path dst_path false s
    = (Ret false,
       add_log (ERROR, "Direct SCP not implemented. Use use_jumphost=True")
         s).
Proof.
  intros * Hsrc Hdst Hexists. unfold copy_file_local_to_remote.
  rewrite Hsrc, Hdst, Hexists. reflexivity.
Qed.

Lemma copy_local_to_remote_direct_not_implemented_witness :
  copy_file_local_to_remote env_ok (Some "/var/tmp/report.txt")
    (Some "/tmp/report.txt") false new_manager
  = (Ret false,
     add_log (ERROR, "Direct SCP not implemented. Use use_jumphost=True")
       new_manager).
Proof.
  apply (copy_local_to_remote_direct_not_implemented env_ok); reflexivity.
Defined.

(** X13. With a jump-host client cached, an upload reuses it: no client is
    constructed or connected.  The copy client is made on the transport of
    the cached client; once it is made, the copy is attempted and the copy
    client is closed whether or not the copy raised.  The call returns
    [True] when the three calls returned; otherwise it raises the error of
    the close if the close raised, else the error of the call that failed.
    The cached sessions stay as they were. *)
Theorem copy_local_to_remote_over_cached_jumphost :
  forall env src_path dst_path s j r s',
    Py.truthy src_path = true ->
    Py.truthy dst_path = true ->
    path_exists env (Py.fmt src_path) = true ->
    _jumphost_client s = Some j ->
    copy_file_local_to_remote env src_path dst_path true s = (r, s') ->
    let k := next_id s in
    let new := SCPClientNew k j in
    let put := SCPPut k (Py.fmt src_path) (Py.fmt dst_path) in
    slots s' = slots s
    /\ match fails env (trace s) new with
       | Some e => r = Raise e /\ trace s' = new :: trace s
       | None =>
           trace s' = SCPClose k :: put :: new :: trace s
           /\ r = match fails env (new :: trace s) put,
                        fails env (put :: new :: trace s) (SCPClose k) with
                  | _, Some e => Raise e
                  | Some e, None => Raise e
                  | None, None => Ret true
                  end
       end.
Proof.
  intros * Hsrc Hdst Hexists Hj Hrun k new put. subst k new put.
  unfold copy_file_local_to_remote in Hrun.
  rewrite Hsrc, Hdst, Hexists in Hrun. simpl in Hrun.
  unfold slots. run_ops. rewrite Hj in Hrun. simpl in Hrun.
  repeat oracle_in Hrun; inversion Hrun; subst; clear Hrun; simpl;
    rewrite ?Hj; repeat split; reflexivity.
Qed.

Lemma copy_local_to_remote_over_cached_jumphost_witness :
  let s := snd (jumphost_connect env_ok (Some "jump") (Some "u") (Some "p")
                  (Some 22%Z) new_manager) in
  let run := copy_file_local_to_remote env_ok (Some "/var/tmp/report.txt")
               (Some "/tmp/report.txt") true s in
  fst run = Ret true
  /\ firstn 3 (trace (snd run))
     = [SCPClose 1; SCPPut 1 "/var/tmp/report.txt" "/tmp/report.txt";
        SCPClientNew 1 0]
  /\ slots (snd run) = slots s.
Proof.
  intros s run.
  destruct (copy_local_to_remote_over_cached_jumphost env_ok
              (Some "/var/tmp/report.txt") (Some "/tmp/report.txt") s 0
              (fst run) (snd run) eq_refl eq_refl eq_refl eq_refl
              (surjective_pairing run))
    as [Hslots [Htrace Hret]].
  split; [exact Hret |]. split; [rewrite Htrace; reflexivity | exact Hslots].
Defined.

(** X14. With no jump-host client cached, an upload connects one itself,
    and the connection it asks for names no host, no user and no password,
    on port 22.  When the upload returns, it returns [True], the copy went
    over the new client, and that client stays cached. *)
Theorem copy_local_to_remote_connects_without_host :
  forall env src_path dst_path s r s',
    Py.truthy src_path = true ->
    Py.truthy dst_path = true ->
    path_exists env (Py.fmt src_path) = true ->
    _jumphost_client s = None ->
    copy_file_local_to_remote env src_path dst_path true s = (r, s') ->
    exists new,
      trace s' = (new ++ trace s)%list
      /\ (forall c hostname username password port sock,
            In (SSHConnect c hostname username password port sock) new ->
            c = next_id s /\ hostname = None /\ username = None
            /\ password = None /\ port = Some 22%Z /\ sock = None)
      /\ (forall b,
            r = Ret b ->
            b = true
            /\ _jumphost_client s' = Some (next_id s)
            /\ new = [SCPClose (S (next_id s));
                      SCPPut (S (next_id s)) (Py.fmt src_path)
                             (Py.fmt dst_path);
                      SCPClientNew (S (next_id s)) (next_id s);
                      SSHConnect (next_id s) None None None (Some 22%Z) None;
                      SetMissingHostKeyPolicy (next_id s);
                      LoadSystemHostKeys (next_id s);
                      SSHClientNew (next_id s)]).
Proof.
  intros * Hsrc Hdst Hexists Hj Hrun.
  unfold copy_file_local_to_remote in Hrun.
  rewrite Hsrc, Hdst, Hexists in Hrun. simpl in Hrun.
  run_ops. rewrite Hj in Hrun. simpl in Hrun.
  repeat first [ oracle_in Hrun | by_exc ];
    inversion Hrun; subst; clear Hrun; simpl;
    eexists; (split; [split_trace |]);
    (split;
     [ intros c hn un pw pt sk Hin; simpl in Hin;
       repeat (destruct Hin as [Hin | Hin];
               [ try discriminate Hin; inversion Hin; subst; auto 10 |]);
       contradiction
     | intros b Hb; inversion Hb; subst; auto ]).
Qed.

Lemma copy_local_to_remote_connects_without_host_witness :
  let run := copy_file_local_to_remote env_ok (Some "/var/tmp/report.txt")
               (Some "/tmp/report.txt") true new_manager in
  fst run = Ret true
  /\ In (SSHConnect 0 None None None (Some 22%Z) None) (trace (snd run))
  /\ _jumphost_client (snd run) = Some 0.
Proof.
  intros run.
  destruct (copy_local_to_remote_connects_without_host env_ok
              (Some "/var/tmp/report.txt") (Some "/tmp/report.txt")
              new_manager (fst run) (snd run) eq_refl eq_refl eq_refl
              eq_refl (surjective_pairing run))
    as [new [Htrace [_ Hret]]].
  destruct (Hret true) as [_ [Hslot Hnew]]; [vm_compute; reflexivity |].
  split; [vm_compute; reflexivity |].
  split; [| exact Hslot].
  rewrite Htrace, Hnew. simpl. auto 10.
Defined.

(** ** E-mail: outcomes *)

Lemma later_here : forall A (l : list A), l = ([] ++ l)%list.
Proof. reflexivity. Qed.

Lemma later_cons :
  forall A (x : A) (l later base : list A),
    l = (later ++ base)%list -> x :: l = ((x :: later) ++ base)%list.
Proof. intros * ->. reflexivity. Qed.

Lemma later_app :
  forall A (xs l later base : list A),
    l = (later ++ base)%list -> (xs ++ l = (xs ++ later) ++ base)%list.
Proof. intros * ->. apply app_assoc. Qed.

(** Exhibit the records logged on top of a given log. *)
Ltac split_log :=
  repeat first [apply later_here | apply later_cons | apply later_app].

(** No record of a list is at level [ERROR]. *)
Ltac no_error :=
  repeat first
    [ assumption
    | apply Forall_nil
    | apply Forall_cons; [simpl; discriminate |]
    | apply Forall_app; split ].

Lemma attach_files_run :
  forall env attach_path names msg s,
    exists extra r,
      attach_files env attach_path names msg s = (r, add_logs extra s)
      /\ Forall (fun rec => fst rec <> ERROR) extra
      /\ match r with
         | Ret m =>
             m = mkMessage (headers msg)
                   (parts msg ++ found_attachments env attach_path names)
         | Raise _ => True
         end.
Proof.
  intros env attach_path names.
  induction names as [| filename rest IH]; intros msg s.
  - exists [], (Ret msg). rewrite add_logs_nil. unfold found_attachments.
    simpl. rewrite app_nil_r. destruct msg. repeat split. constructor.
  - unfold found_attachments. simpl.
    destruct (path_exists env (Py.os_path_join attach_path filename))
      eqn:Hexists; simpl.
    + destruct (read_file env (Py.os_path_join attach_path filename))
        as [e | data] eqn:Hdata.
      * exists [], (Raise e). rewrite add_logs_nil. repeat split.
        constructor.
      * unfold bind at 1. unfold logger, modify.
        match goal with
        | |- context [attach_files env attach_path rest ?m ?s1] =>
            destruct (IH m s1) as [extra [r [Hrun [Hextra Hr]]]]
        end.
        rewrite Hrun.
        exists (app extra [(DEBUG, "Attached: " ++ filename)]), r.
        match goal with
        | |- context [add_log ?x s] =>
            change (add_log x s) with (add_logs [x] s)
        end.
        rewrite add_logs_add_logs. split; [reflexivity |].
        split; [no_error |].
        destruct r as [m | e]; [| exact I].
        rewrite Hr. unfold attach. simpl. rewrite <- app_assoc.
        reflexivity.
    + unfold bind at 1. unfold logger, modify.
      match goal with
      | |- context [attach_files env attach_path rest ?m ?s1] =>
          destruct (IH m s1) as [extra [r [Hrun [Hextra Hr]]]]
      end.
      rewrite Hrun.
      exists (app extra
                [(WARNING, "Attachment not found: "
                           ++ Py.os_path_join attach_path filename)]), r.
      match goal with
      | |- context [add_log ?x s] =>
          change (add_log x s) with (add_logs [x] s)
      end.
      rewrite add_logs_add_logs. split; [reflexivity |].
      split; [no_error | exact Hr].
Qed.

Ltac fin := first [eassumption | reflexivity].

Ltac failed_part :=
  split;
  [ reflexivity
  | split; [apply f_equal2; [reflexivity | split_log] | reflexivity] ].

Ltac sent_part := split; [reflexivity | split; [fin | split; fin]].

(** Split on the outcome of the next library call or write of a run. *)
Ltac outcome_in H :=
  first
    [ oracle_in H
    | match type of H with
      | context [write_fails ?e ?out ?line] =>
          let E := fresh "Hwrite" in
          destruct (write_fails e out line) eqn:E; simpl in H
      end ].

(** Every run of [send_email] that passes the validation: the attachments
    could not be read; or the SMTP client could not be constructed; or the
    sending or the exit raised; or the mail went out and the confirmation
    could not be printed; or the call returned. *)
Lemma send_email_run :
  forall env email_from email_to email_subject email_body greeting cc_emails
         destination_path attach_list smtp_server smtp_port s r s',
    Py.all [email_from; email_to; email_subject; greeting; email_body]
    = true ->
    send_email env email_from email_to email_subject email_body greeting
      cc_emails destination_path attach_list smtp_server smtp_port s
    = (r, s') ->
    let k := next_id s in
    let new := SMTPNew k smtp_server smtp_port in
    let line := "✓ Email sent to " ++ Py.fmt email_to in
    let failed e added :=
      r = Raise e
      /\ log s' = (ERROR, "Failed to send email: " ++ str_exc e)
                  :: (added ++ log s)%list
      /\ stdout s' = stdout s in
    let sent msg :=
      trace s' = SMTPExit k :: SMTPSendMessage k msg :: new :: trace s
      /\ fails env (trace s) new = None
      /\ fails env (new :: trace s) (SMTPSendMessage k msg) = None
      /\ fails env (SMTPSendMessage k msg :: new :: trace s) (SMTPExit k)
         = None in
    slots s' = slots s
    /\ exists added,
         Forall (fun rec => fst rec <> ERROR) added
         /\ ((exists e, failed e added /\ trace s' = trace s)
             \/ (exists e,
                   failed e added
                   /\ fails env (trace s) new = Some e
                   /\ trace s' = new :: trace s)
             \/ (exists e msg,
                   failed e added
                   /\ fails env (trace s) new = None
                   /\ trace s'
                      = SMTPExit k :: SMTPSendMessage k msg :: new :: trace s
                   /\ (fails env (new :: trace s) (SMTPSendMessage k msg)
                       = Some e
                       \/ fails env (SMTPSendMessage k msg :: new :: trace s)
                            (SMTPExit k) = Some e))
             \/ (exists e msg,
                   failed e added /\ sent msg
                   /\ write_fails env (stdout s) line = Some e)
             \/ (exists msg html,
                   r = Ret true /\ sent msg
                   /\ write_fails env (stdout s) line = None
                   /\ log s' = (added ++ log s)%list
                   /\ stdout s' = line :: stdout s
                   /\ headers msg
                      = app (headers MIMEMultipart)
                          (app [("Date", now env);
                                ("From", Py.fmt email_from);
                                ("To", Py.fmt email_to);
                                ("Subject", Py.fmt email_subject)]
                               match cc_emails with
                               | Some (c :: cs) =>
                                   [("Cc", Py.join ", " (c :: cs))]
                               | _ => []
                               end)
                   /\ parts msg
                      = MIMEText html "html"
                        :: (if Py.truthy_list attach_list
                               && Py.truthy destination_path
                            then found_attachments env
                                   (Py.fmt destination_path)
                                   match attach_list with
                                   | Some l => l
                                   | None => []
                                   end
                            else []))).
Proof.
  intros * Hall Hrun k new line failed sent.
  subst k new line failed sent.
  unfold send_email in Hrun. cbv zeta in Hrun. rewrite Hall in Hrun.
  cbn [negb] in Hrun.
  unfold try_except, _get_config, with_as, bind, logger, print, modify,
    gets, alloc, call, ret, raise in Hrun.
  cbn [config add_log] in Hrun.
  destruct (config s "email_data" "email_footer") as [footer |];
    destruct cc_emails as [[| c cs] |];
    destruct (Py.truthy_list attach_list && Py.truthy destination_path);
    try match type of Hrun with
        | context [attach_files env ?dir ?names ?m ?s1] =>
            destruct (attach_files_run env dir names m s1)
              as [extra [[m' | e] [Hatt [Hextra Hm]]]];
            rewrite Hatt in Hrun; try rewrite Hm in Hrun
        end;
    simpl in Hrun;
    repeat outcome_in Hrun;
    inversion Hrun; subst; clear Hrun;
    (split; [reflexivity |]);
    simpl; eexists; (split; [shelve |]);
    first
      [ solve [left; eexists; split; [failed_part | reflexivity]]
      | solve [right; left; eexists; split; [failed_part | split; fin]]
      | solve [right; right; left; do 2 eexists;
               split;
               [ failed_part
               | split;
                 [ fin
                 | split; [reflexivity | first [left; fin | right; fin]] ] ]]
      | solve [right; right; right; left; do 2 eexists;
               split; [failed_part | split; [sent_part | fin]]]
      | solve [right; right; right; right; do 2 eexists;
               split;
               [ reflexivity
               | split;
                 [ sent_part
                 | split;
                   [ fin
                   | split;
                     [ split_log
                     | split; [reflexivity | split; reflexivity] ] ] ] ]] ].
  Unshelve.
  all: no_error.
Qed.


(** X16. [send_email] returns only [True], and only after the SMTP client
    was constructed, the message was sent and the client was exited, all
    three without raising and in that order; the confirmation line is then
    printed. *)
Theorem send_email_returns_after_delivery :
  forall env email_from email_to email_subject email_body greeting cc_emails
         destination_path attach_list smtp_server smtp_port s b s',
    send_email env email_from email_to email_subject email_body greeting
      cc_emails destination_path attach_list smtp_server smtp_port s
    = (Ret b, s') ->
    let k := next_id s in
    let new := SMTPNew k smtp_server smtp_port in
    b = true
    /\ Py.all [email_from; email_to; email_subject; greeting; email_body]
       = true
    /\ stdout s' = ("✓ Email sent to " ++ Py.fmt email_to) :: stdout s
    /\ exists msg,
         trace s' = SMTPExit k :: SMTPSendMessage k msg :: new :: trace s
         /\ fails env (trace s) new = None
         /\ fails env (new :: trace s) (SMTPSendMessage k msg) = None
         /\ fails env (SMTPSendMessage k msg :: new :: trace s) (SMTPExit k)
            = None.
Proof.
  intros * Hrun k new. subst k new.
  destruct (Py.all [email_from; email_to; email_subject; greeting;
                    email_body]) eqn:Hall.
  - destruct (send_email_run _ _ _ _ _ _ _ _ _ _ _ _ _ _ Hall Hrun)
      as [_ [added [_ [[e [[Hr _] _]]
                      | [[e [[Hr _] _]]
                        | [[e [msg [[Hr _] _]]]
                          | [[e [msg [[Hr _] _]]]
                            | [msg [html [Hr [Hsent [_ [_ [Hout _]]]]]]]]]]]]]];
      try discriminate Hr.
    inversion Hr; subst. repeat split; auto. exists msg. exact Hsent.
  - unfold send_email in Hrun. cbv zeta in Hrun. rewrite Hall in Hrun.
    discriminate Hrun.
Qed.

Lemma send_email_returns_after_delivery_witness :
  let run := send_email env_ok (Some "noc@example.net")
               (Some "ops@example.net") (Some "Report")
               (Some "See attachment.") (Some "Hello,") None None None
               "localhost" 25%Z new_manager in
  fst run = Ret true
  /\ exists msg,
       trace (snd run)
       = [SMTPExit 0; SMTPSendMessage 0 msg; SMTPNew 0 "localhost" 25%Z].
Proof.
  intros run.
  assert (Hrun : run = (Ret true, snd run)) by (vm_compute; reflexivity).
  destruct (send_email_returns_after_delivery env_ok
              (Some "noc@example.net") (Some "ops@example.net")
              (Some "Report") (Some "See attachment.") (Some "Hello,") None
              None None "localhost" 25%Z new_manager true (snd run) Hrun)
    as [_ [_ [_ [msg [Htrace _]]]]].
  split; [rewrite Hrun; reflexivity |]. exists msg. exact Htrace.
Defined.

(** X17. The message of a [send_email] that returned: its headers are the
    [Content-Type] and [MIME-Version] a new multipart message starts with,
    then [Date], [From], [To] and [Subject], in this order, followed by a
    [Cc] header with the addresses joined by a comma when the list is
    non-empty; the parts are the HTML body followed, when both the list of
    attachments and the directory are given, by one attachment for each
    name whose path exists. *)
Theorem send_email_message :
  forall env email_from email_to email_subject email_body greeting cc_emails
         destination_path attach_list smtp_server smtp_port s b s',
    send_email env email_from email_to email_subject email_body greeting
      cc_emails destination_path attach_list smtp_server smtp_port s
    = (Ret b, s') ->
    exists server msg html,
      hd_error (tl (trace s')) = Some (SMTPSendMessage server msg)
      /\ headers msg
         = app [("Content-Type", "multipart/mixed"); ("MIME-Version", "1.0");
                ("Date", now env); ("From", Py.fmt email_from);
                ("To", Py.fmt email_to); ("Subject", Py.fmt email_subject)]
               match cc_emails with
               | Some (c :: cs) => [("Cc", Py.join ", " (c :: cs))]
               | _ => []
               end
      /\ parts msg
         = MIMEText html "html"
           :: (if Py.truthy_list attach_list && Py.truthy destination_path
               then found_attachments env (Py.fmt destination_path)
                      match attach_list with
                      | Some l => l
                      | None => []
                      end
               else []).
Proof.
  intros * Hrun.
  destruct (Py.all [email_from; email_to; email_subject; greeting;
                    email_body]) eqn:Hall.
  - destruct (send_email_run _ _ _ _ _ _ _ _ _ _ _ _ _ _ Hall Hrun)
      as [_ [added [_ [[e [[Hr _] _]]
                      | [[e [[Hr _] _]]
                        | [[e [msg [[Hr _] _]]]
                          | [[e [msg [[Hr _] _]]]
                            | [msg [html [_ [[Htrace _]
                                              [_ [_ [_ [Hheaders
                                                         Hparts]]]]]]]]]]]]]]];
      try discriminate Hr.
    exists (next_id s), msg, html. rewrite Htrace.
    split; [reflexivity |]. split; [exact Hheaders | exact Hparts].
  - unfold send_email in Hrun. cbv zeta in Hrun. rewrite Hall in Hrun.
    discriminate Hrun.
Qed.

Lemma send_email_message_witness :
  let run := send_email env_ok (Some "noc@example.net")
               (Some "ops@example.net") (Some "Report")
               (Some "See attachment.") (Some "Hello,")
               (Some ["a@example.net"; "b@example.net"]) (Some "/var/tmp")
               (Some ["missing.txt"; "report.txt"]) "localhost" 25%Z
               new_manager in
  exists server msg,
    hd_error (tl (trace (snd run))) = Some (SMTPSendMessage server msg)
    /\ headers msg
       = [("Content-Type", "multipart/mixed"); ("MIME-Version", "1.0");
          ("Date", "Wed, 04 Nov 2026 12:00:00 ");
          ("From", "noc@example.net"); ("To", "ops@example.net");
          ("Subject", "Report"); ("Cc", "a@example.net, b@example.net")]
    /\ tl (parts msg)
       = [MIMEApplication ["o"%char; "k"%char] "txt"
            ("Content-Disposition", "attachment", "report.txt")].
Proof.
  intros run.
  assert (Hrun : run = (Ret true, snd run)) by (vm_compute; reflexivity).
  destruct (send_email_message env_ok (Some "noc@example.net")
              (Some "ops@example.net") (Some "Report")
              (Some "See attachment.") (Some "Hello,")
              (Some ["a@example.net"; "b@example.net"]) (Some "/var/tmp")
              (Some ["missing.txt"; "report.txt"]) "localhost" 25%Z
              new_manager true (snd run) Hrun)
    as [server [msg [html [Hsent [Hheaders Hparts]]]]].
  exists server, msg. split; [exact Hsent |].
  split; [exact Hheaders | rewrite Hparts; reflexivity].
Defined.

(** X18. When [send_email] raises, either a required parameter was missing,
    the error is a [ValueError] and nothing was logged or changed; or the
    error was logged exactly once before it was raised again, and nothing
    was printed: the newest record is the error record naming it, and no
    other record that the call added is at level [ERROR]. *)
Theorem send_email_logs_failures :
  forall env email_from email_to email_subject email_body greeting cc_emails
         destination_path attach_list smtp_server smtp_port s e s',
    send_email env email_from email_to email_subject email_body greeting
      cc_emails destination_path attach_list smtp_server smtp_port s
    = (Raise e, s') ->
    (Py.all [email_from; email_to; email_subject; greeting; email_body]
     = false
     /\ s' = s /\ exists m, e = ValueError m)
    \/ (Py.all [email_from; email_to; email_subject; greeting; email_body]
        = true
        /\ stdout s' = stdout s
        /\ exists added,
             log s' = (ERROR, "Failed to send email: " ++ str_exc e)
                      :: (added ++ log s)%list
             /\ Forall (fun rec => fst rec <> ERROR) added).
Proof.
  intros * Hrun.
  destruct (Py.all [email_from; email_to; email_subject; greeting;
                    email_body]) eqn:Hall.
  - right. split; [reflexivity |].
    destruct (send_email_run _ _ _ _ _ _ _ _ _ _ _ _ _ _ Hall Hrun)
      as [_ [added [Hadded [[e' [[Hr [Hlog Hout]] _]]
                           | [[e' [[Hr [Hlog Hout]] _]]
                             | [[e' [msg [[Hr [Hlog Hout]] _]]]
                               | [[e' [msg [[Hr [Hlog Hout]] _]]]
                                 | [msg [html [Hr _]]]]]]]]]];
      try discriminate Hr;
      inversion Hr; subst; (split; [exact Hout |]);
      exists added; split; assumption.
  - left. unfold send_email in Hrun. cbv zeta in Hrun. rewrite Hall in Hrun.
    inversion Hrun; subst. split; [reflexivity |].
    split; [reflexivity |]. eexists. reflexivity.
Qed.

Lemma send_email_logs_failures_witness :
  let run := send_email env_relay_down (Some "noc@example.net")
               (Some "ops@example.net") (Some "Report")
               (Some "See attachment.") (Some "Hello,") None None None
               "localhost" 25%Z new_manager in
  fst run = Raise (OtherException "Connection refused")
  /\ hd_error (log (snd run))
     = Some (ERROR, "Failed to send email: Connection refused").
Proof.
  intros run.
  assert (Hrun : run = (Raise (OtherException "Connection refused"),
                        snd run))
    by (vm_compute; reflexivity).
  destruct (send_email_logs_failures env_relay_down
              (Some "noc@example.net") (Some "ops@example.net")
              (Some "Report") (Some "See attachment.") (Some "Hello,") None
              None None "localhost" 25%Z new_manager
              (OtherException "Connection refused") (snd run) Hrun)
    as [[Hall _] | [_ [_ [added [Hlog _]]]]].
  - discriminate Hall.
  - split; [rewrite Hrun; reflexivity |]. rewrite Hlog. reflexivity.
Defined.



(** ** Local file-system helpers *)

(** X19. [check_directory_exists] and [check_file_exists] never raise and
    leave everything but the log alone.  They return [True] exactly when a
    non-empty path is given and the file system answers yes, and they log
    one record: an error when no path is given, an information when the
    answer is yes, a warning when it is no. *)
Theorem check_exists_answers :
  forall os path s,
    (exists lvl msg,
        check_directory_exists os path s
        = (Ret (Py.truthy path && isdir os (Py.fmt path)),
           add_log (lvl, msg) s)
        /\ lvl = (if negb (Py.truthy path) then ERROR
                  else if isdir os (Py.fmt path) then INFO else WARNING))
    /\ (exists lvl msg,
          check_file_exists os path s
          = (Ret (Py.truthy path && isfile os (Py.fmt path)),
             add_log (lvl, msg) s)
          /\ lvl = (if negb (Py.truthy path) then ERROR
                    else if isfile os (Py.fmt path) then INFO else WARNING)).
Proof.
  intros. unfold check_directory_exists, check_file_exists. cbv zeta.
  split.
  - destruct (Py.truthy path); simpl.
    + destruct (isdir os (Py.fmt path)); do 2 eexists; split; reflexivity.
    + do 2 eexists; split; reflexivity.
  - destruct (Py.truthy path); simpl.
    + destruct (isfile os (Py.fmt path)); do 2 eexists; split; reflexivity.
    + do 2 eexists; split; reflexivity.
Qed.

(** X20. [create_directory] never raises: it returns [True] exactly when a
    non-empty path is given and [mkdir] returned, and [False] after logging
    an error otherwise, the error of [mkdir] included. *)
Theorem create_directory_never_raises :
  forall os path s,
    exists lvl msg,
      create_directory os path s
      = (Ret (Py.truthy path
              && match mkdir os (Py.fmt path) with
                 | None => true
                 | Some _ => false
                 end),
         add_log (lvl, msg) s)
      /\ lvl = (if Py.truthy path
                then match mkdir os (Py.fmt path) with
                     | None => INFO
                     | Some _ => ERROR
                     end
                else ERROR)
      /\ (forall e,
            Py.truthy path = true ->
            mkdir os (Py.fmt path) = Some e ->
            msg = "Failed to create directory " ++ Py.fmt path ++ ": "
                  ++ str_exc e).
Proof.
  intros. unfold create_directory. cbv zeta.
  destruct (Py.truthy path); simpl.
  - unfold try_except, bind, raise, ret, logger, modify.
    destruct (mkdir os (Py.fmt path)) as [e |]; simpl;
      do 2 eexists; (split; [reflexivity |]); split; try reflexivity;
      intros e' _ He; inversion He; subst; reflexivity.
  - do 2 eexists. split; [reflexivity |]. split; [reflexivity |].
    intros e H. discriminate H.
Qed.

(** ** The slots never share an object *)

Lemma keeps_ret : forall P A (a : A), keeps P (ret a).
Proof. intros P A a s r s' HP Hrun. inversion Hrun; subst. exact HP. Qed.

Lemma keeps_raise : forall P A e, keeps P (@raise St A e).
Proof. intros P A e s r s' HP Hrun. inversion Hrun; subst. exact HP. Qed.

Lemma keeps_gets : forall P A (f : St -> A), keeps P (gets f).
Proof. intros P A f s r s' HP Hrun. inversion Hrun; subst. exact HP. Qed.

Lemma keeps_bind :
  forall P A B (m : M St A) (k : A -> M St B),
    keeps P m -> (forall a, keeps P (k a)) -> keeps P (bind m k).
Proof.
  intros P A B m k Hm Hk s r s' HP Hrun. unfold bind in Hrun.
  destruct (m s) as [[a | e] s1] eqn:Hms.
  - exact (Hk a s1 r s' (Hm s _ s1 HP Hms) Hrun).
  - inversion Hrun; subst. exact (Hm s _ s' HP Hms).
Qed.

Lemma keeps_try_except :
  forall P A (m : M St A) (handler : Exc -> M St A),
    keeps P m -> (forall e, keeps P (handler e)) ->
    keeps P (try_except m handler).
Proof.
  intros P A m handler Hm Hh s r s' HP Hrun. unfold try_except in Hrun.
  destruct (m s) as [[a | e] s1] eqn:Hms.
  - inversion Hrun; subst. exact (Hm s _ s' HP Hms).
  - exact (Hh e s1 r s' (Hm s _ s1 HP Hms) Hrun).
Qed.

Lemma keeps_with_as :
  forall P A (ctor : M St Handle) (body : Handle -> M St A)
         (exit : Handle -> M St unit),
    keeps P ctor -> (forall x, keeps P (body x)) ->
    (forall x, keeps P (exit x)) ->
    keeps P (with_as ctor body exit).
Proof.
  intros P A ctor body exit Hc Hb He. unfold with_as.
  apply keeps_bind; [exact Hc |].
  intros x s r s' HP Hrun.
  destruct (body x s) as [[a | e] s1] eqn:Hbs.
  - refine (keeps_bind _ _ _ _ _ (He x) _ s1 r s' (Hb x s _ s1 HP Hbs) Hrun).
    intros; apply keeps_ret.
  - refine (keeps_bind _ _ _ _ _ (He x) _ s1 r s' (Hb x s _ s1 HP Hbs) Hrun).
    intros; apply keeps_raise.
Qed.

(** Decide the invariant once the slots are known. *)
Ltac inv_cases Hd Hj Ht :=
  unfold inv, wf, slot_ok, differ; simpl; rewrite ?Hd, ?Hj, ?Ht; simpl;
  repeat match goal with
         | H : _ /\ _ |- _ => destruct H
         end;
  repeat split; auto; lia.

Lemma keeps_inv_logger : forall lvl msg, keeps inv (logger lvl msg).
Proof. intros lvl msg s r s' HP Hrun. inversion Hrun; subst. exact HP. Qed.

Lemma keeps_inv_print : forall env line, keeps inv (print env line).
Proof.
  intros env line s r s' HP Hrun. unfold print in Hrun.
  destruct (write_fails env (stdout s) line); inversion Hrun; subst;
    exact HP.
Qed.

Lemma keeps_inv_call : forall env c, keeps inv (call env c).
Proof.
  intros env c s r s' HP Hrun. unfold call in Hrun.
  destruct (fails env (trace s) c); inversion Hrun; subst; exact HP.
Qed.

Lemma keeps_inv_alloc : keeps inv alloc.
Proof.
  intros s r s' HP Hrun. inversion Hrun; subst.
  unfold inv, wf, slot_ok, differ in HP.
  destruct (_junos_device s) eqn:Hd, (_jumphost_client s) eqn:Hj,
    (_target_client s) eqn:Ht; inv_cases Hd Hj Ht.
Qed.

Ltac clears_slot :=
  let s := fresh "s" in
  let HP := fresh "HP" in
  let Hrun := fresh "Hrun" in
  let Hd := fresh "Hd" in
  let Hj := fresh "Hj" in
  let Ht := fresh "Ht" in
  intros s ? ? HP Hrun; inversion Hrun; subst;
  unfold inv, wf, slot_ok, differ in HP;
  destruct (_junos_device s) eqn:Hd, (_jumphost_client s) eqn:Hj,
    (_target_client s) eqn:Ht; inv_cases Hd Hj Ht.

Lemma keeps_inv_clear_junos_device :
  keeps inv (modify (set_junos_device None)).
Proof. clears_slot. Qed.

Lemma keeps_inv_clear_jumphost_client :
  keeps inv (modify (set_jumphost_client None)).
Proof. clears_slot. Qed.

Lemma keeps_inv_clear_target_client :
  keeps inv (modify (set_target_client None)).
Proof. clears_slot. Qed.

Lemma keeps_inv_junos_open_connection :
  forall env hostname username password port,
    keeps inv (junos_open_connection env hostname username password port).
Proof.
  intros * s r s' HP Hrun. unfold inv, wf, slot_ok, differ in HP. run_ops.
  destruct (_junos_device s) eqn:Hd, (_jumphost_client s) eqn:Hj,
    (_target_client s) eqn:Ht; simpl in Hrun;
    repeat oracle_in Hrun; try by_exc; inversion Hrun; subst; clear Hrun;
    inv_cases Hd Hj Ht.
Qed.

Lemma keeps_inv_jumphost_connect :
  forall env hostname username password port,
    keeps inv (jumphost_connect env hostname username password port).
Proof.
  intros * s r s' HP Hrun. unfold inv, wf, slot_ok, differ in HP. run_ops.
  destruct (_junos_device s) eqn:Hd, (_jumphost_client s) eqn:Hj,
    (_target_client s) eqn:Ht; simpl in Hrun;
    repeat oracle_in Hrun; try by_exc; inversion Hrun; subst; clear Hrun;
    inv_cases Hd Hj Ht.
Qed.

Lemma keeps_inv_jumphost_transport_connect :
  forall env hostname username password port dst_host dst_username
         dst_password dst_port,
    keeps inv (jumphost_transport_connect env hostname username password
                 port dst_host dst_username dst_password dst_port).
Proof.
  intros * s r s' HP Hrun. unfold jumphost_transport_connect in Hrun.
  destruct (Py.truthy dst_host); simpl in Hrun;
    [| inversion Hrun; subst; exact HP].
  unfold inv, wf, slot_ok, differ in HP. run_ops.
  destruct (_junos_device s) eqn:Hd, (_jumphost_client s) eqn:Hj,
    (_target_client s) eqn:Ht; simpl in Hrun;
    repeat oracle_in Hrun; inversion Hrun; subst; clear Hrun;
    inv_cases Hd Hj Ht.
Qed.

Create HintDb inv_db.
#[local] Hint Resolve keeps_ret keeps_raise keeps_gets keeps_inv_logger
  keeps_inv_print keeps_inv_call keeps_inv_alloc
  keeps_inv_junos_open_connection keeps_inv_jumphost_connect
  keeps_inv_jumphost_transport_connect : inv_db.
#[local] Hint Resolve keeps_inv_clear_junos_device
  keeps_inv_clear_jumphost_client keeps_inv_clear_target_client : inv_db.

Ltac inv_steps :=
  repeat first
    [ solve [auto with inv_db]
    | apply keeps_with_as; [| intros ? | intros ?]
    | apply keeps_try_except; [| intros ?]
    | apply keeps_bind; [| intros ?]
    | match goal with
      | |- keeps inv (if ?c then _ else _) => destruct c
      | |- keeps inv (match ?x with _ => _ end) => destruct x
      end ].

Lemma keeps_inv_attach_files :
  forall env attach_path names msg,
    keeps inv (attach_files env attach_path names msg).
Proof.
  intros env attach_path names.
  induction names as [| filename rest IH]; intros msg; simpl.
  - apply keeps_ret.
  - destruct (path_exists env (Py.os_path_join attach_path filename)); simpl.
    + destruct (read_file env (Py.os_path_join attach_path filename)).
      * apply keeps_raise.
      * apply keeps_bind; [apply keeps_inv_logger | intros; apply IH].
    + apply keeps_bind; [apply keeps_inv_logger | intros; apply IH].
Qed.

Lemma step_keeps_inv : forall s s', inv s -> step s s' -> inv s'.
Proof.
  intros s s' Hinv Hstep.
  assert (Hkeeps : forall A (m : M St A), keeps inv m -> inv (snd (m s))).
  { intros A m Hm. destruct (m s) as [r s1] eqn:Hrun.
    exact (Hm s r s1 Hinv Hrun). }
  destruct Hstep; apply Hkeeps.
  - auto with inv_db.
  - unfold junos_close_connection. inv_steps.
  - unfold connect_junos_shell. inv_steps.
  - auto with inv_db.
  - unfold jumphost_disconnect. inv_steps.
  - auto with inv_db.
  - unfold jumphost_transport_disconnect. inv_steps.
  - unfold check_directory_exists. cbv zeta. inv_steps.
  - unfold check_file_exists. cbv zeta. inv_steps.
  - unfold create_directory. cbv zeta. inv_steps.
  - unfold copy_file_local_to_remote. cbv zeta. inv_steps.
  - unfold send_email, _get_config. cbv zeta.
    pose proof keeps_inv_attach_files. inv_steps.
  - unfold close_all_connections, junos_close_connection,
      jumphost_transport_disconnect, jumphost_disconnect. inv_steps.
  - unfold __exit__, close_all_connections, junos_close_connection,
      jumphost_transport_disconnect, jumphost_disconnect. inv_steps.
  - unfold copy_file_remote_to_local. cbv zeta. inv_steps.
  - unfold __enter__. inv_steps.
  - unfold _get_config. inv_steps.
Qed.

(** X23. From its construction on, through any sequence of calls of its
    methods with any arguments and in any environments, a manager never
    holds the same object in two slots, and every cached handle names an
    object that was constructed. *)
Theorem reachable_slots_differ :
  forall s,
    reachable s ->
    wf s
    /\ differ (_junos_device s) (_jumphost_client s)
    /\ differ (_junos_device s) (_target_client s)
    /\ differ (_jumphost_client s) (_target_client s).
Proof.
  intros s Hreach. change (inv s).
  induction Hreach as [config_file | s s' _ IH Hstep].
  - destruct config_file; unfold inv, wf, slot_ok, differ; simpl; auto.
  - exact (step_keeps_inv s s' IH Hstep).
Qed.

Lemma reachable_slots_differ_witness :
  let s := snd (jumphost_transport_connect env_ok (Some "jump") (Some "u")
                  (Some "p") (Some 22%Z) (Some "target") (Some "u")
                  (Some "p") (Some 22%Z)
                  (snd (junos_open_connection env_ok (Some "r1") (Some "u")
                          (Some "p") (Some 22%Z) new_manager))) in
  slots s = (Some 0, Some 1, Some 3)
  /\ differ (_jumphost_client s) (_target_client s).
Proof.
  intros s. split; [vm_compute; reflexivity |].
  apply (reachable_slots_differ s).
  apply reachable_step with
    (s := snd (junos_open_connection env_ok (Some "r1") (Some "u")
                 (Some "p") (Some 22%Z) new_manager)).
  - apply reachable_step with (s := new_manager).
    + apply reachable_init.
    + apply step_junos_open_connection.
  - apply step_jumphost_transport_connect.
Defined.

(** ** Cached sessions across calls that close nothing *)

Lemma junos_open_connection_slots :
  forall env hostname username password port s r s',
    junos_open_connection env hostname username password port s = (r, s') ->
    _jumphost_client s' = _jumphost_client s
    /\ _target_client s' = _target_client s
    /\ (forall d, _junos_device s = Some d -> _junos_device s' = Some d).
Proof.
  intros * Hrun. run_ops.
  destruct (_junos_device s) eqn:Hd; simpl in Hrun;
    repeat oracle_in Hrun; try by_exc; inversion Hrun; subst; clear Hrun;
    simpl; repeat split; auto; intros; congruence.
Qed.

Lemma connect_junos_shell_slots :
  forall env s r s',
    connect_junos_shell env s = (r, s') ->
    _jumphost_client s' = _jumphost_client s
    /\ _target_client s' = _target_client s
    /\ (forall d, _junos_device s = Some d -> _junos_device s' = Some d).
Proof.
  intros * Hrun. unfold connect_junos_shell in Hrun. run_ops.
  destruct (_junos_device s) eqn:Hd; simpl in Hrun;
    repeat oracle_in Hrun; try by_exc; inversion Hrun; subst; clear Hrun;
    simpl; repeat split; auto; intros; congruence.
Qed.

Lemma jumphost_connect_slots :
  forall env hostname username password port s r s',
    jumphost_connect env hostname username password port s = (r, s') ->
    _junos_device s' = _junos_device s
    /\ _target_client s' = _target_client s
    /\ (forall c, _jumphost_client s = Some c ->
                  _jumphost_client s' = Some c).
Proof.
  intros * Hrun. run_ops.
  destruct (_jumphost_client s) eqn:Hc; simpl in Hrun;
    repeat oracle_in Hrun; try by_exc; inversion Hrun; subst; clear Hrun;
    simpl; repeat split; auto; intros; congruence.
Qed.

Lemma copy_file_local_to_remote_slots :
  forall env src_path dst_path use_jumphost s r s',
    copy_file_local_to_remote env src_path dst_path use_jumphost s
    = (r, s') ->
    _junos_device s' = _junos_device s
    /\ _target_client s' = _target_client s
    /\ (forall c, _jumphost_client s = Some c ->
                  _jumphost_client s' = Some c).
Proof.
  intros * Hrun. unfold copy_file_local_to_remote in Hrun.
  cbv zeta in Hrun.
  destruct (negb (Py.truthy src_path) || negb (Py.truthy dst_path));
    [| destruct (negb (path_exists env (Py.fmt src_path)));
       [| destruct use_jumphost] ];
    run_ops; try (inversion Hrun; subst; simpl; auto; fail).
  destruct (_jumphost_client s) eqn:Hc; simpl in Hrun;
    repeat oracle_in Hrun; try by_exc; inversion Hrun; subst; clear Hrun;
    simpl; repeat split; auto; intros; congruence.
Qed.

Lemma copy_file_remote_to_local_slots :
  forall env src_path dst_path use_jumphost s r s',
    copy_file_remote_to_local env src_path dst_path use_jumphost s
    = (r, s') ->
    _junos_device s' = _junos_device s
    /\ _target_client s' = _target_client s
    /\ (forall c, _jumphost_client s = Some c ->
                  _jumphost_client s' = Some c).
Proof.
  intros * Hrun. unfold copy_file_remote_to_local in Hrun.
  cbv zeta in Hrun.
  destruct (negb (Py.truthy src_path) || negb (Py.truthy dst_path));
    [| destruct use_jumphost];
    run_ops; try (inversion Hrun; subst; simpl; auto; fail).
  destruct (_jumphost_client s) eqn:Hc; simpl in Hrun;
    repeat oracle_in Hrun; try by_exc; inversion Hrun; subst; clear Hrun;
    simpl; repeat split; auto; intros; congruence.
Qed.

Lemma jumphost_transport_connect_slots :
  forall env hostname username password port dst_host dst_username
         dst_password dst_port s r s',
    jumphost_transport_connect env hostname username password port dst_host
      dst_username dst_password dst_port s = (r, s') ->
    _junos_device s' = _junos_device s
    /\ (forall t j,
          _target_client s = Some t ->
          _jumphost_client s = Some j ->
          _target_client s' = Some t /\ _jumphost_client s' = Some j).
Proof.
  intros * Hrun. unfold jumphost_transport_connect in Hrun.
  destruct (Py.truthy dst_host); simpl in Hrun;
    [| inversion Hrun; subst; auto].
  run_ops.
  destruct (_target_client s) eqn:Ht, (_jumphost_client s) eqn:Hj;
    simpl in Hrun;
    repeat oracle_in Hrun; inversion Hrun; subst; clear Hrun; simpl;
    split; auto; intros; first [congruence | split; congruence].
Qed.

Lemma send_email_slots :
  forall env email_from email_to email_subject email_body greeting cc_emails
         destination_path attach_list smtp_server smtp_port s r s',
    send_email env email_from email_to email_subject email_body greeting
      cc_emails destination_path attach_list smtp_server smtp_port s
    = (r, s') ->
    slots s' = slots s.
Proof.
  intros * Hrun.
  destruct (Py.all [email_from; email_to; email_subject; greeting;
                    email_body]) eqn:Hall.
  - destruct (send_email_run _ _ _ _ _ _ _ _ _ _ _ _ _ _ Hall Hrun)
      as [Hslots _].
    exact Hslots.
  - unfold send_email in Hrun. cbv zeta in Hrun. rewrite Hall in Hrun.
    inversion Hrun; subst. reflexivity.
Qed.

Lemma helpers_slots :
  forall os path s,
    slots (snd (check_directory_exists os path s)) = slots s
    /\ slots (snd (check_file_exists os path s)) = slots s
    /\ slots (snd (create_directory os path s)) = slots s.
Proof.
  intros. unfold check_directory_exists, check_file_exists, create_directory.
  cbv zeta. split; [| split]; destruct (Py.truthy path); simpl;
    try reflexivity.
  - destruct (isdir os (Py.fmt path)); reflexivity.
  - destruct (isfile os (Py.fmt path)); reflexivity.
  - unfold try_except, bind, raise, ret, logger, modify.
    destruct (mkdir os (Py.fmt path)); reflexivity.
Qed.

(** What is cached stays cached: the device and the pair of the tunnel
    through any such call, the jump-host client through any such call other
    than [jumphost_transport_connect]. *)
Lemma no_close_step_slots :
  forall tunnel s s',
    no_close_step tunnel s s' ->
    (forall d, _junos_device s = Some d -> _junos_device s' = Some d)
    /\ (forall t j,
          _target_client s = Some t ->
          _jumphost_client s = Some j ->
          _target_client s' = Some t /\ _jumphost_client s' = Some j)
    /\ (tunnel = false ->
        forall c, _jumphost_client s = Some c ->
                  _jumphost_client s' = Some c).
Proof.
  intros tunnel s s' Hstep.
  destruct Hstep as
    [ section key default s
    | env hostname username password port s
    | env s
    | env hostname username password port s
    | env hostname username password port dst_host dst_username dst_password
        dst_port s Htunnel
    | os path s | os path s | os path s
    | env src_path dst_path use_jumphost s
    | env src_path dst_path use_jumphost s
    | env email_from email_to email_subject email_body greeting cc_emails
        destination_path attach_list smtp_server smtp_port s
    | s ].
  - unfold _get_config, bind, gets, ret. simpl.
    destruct (config s section key); simpl; auto.
  - destruct (junos_open_connection_slots env hostname username password
                port s _ _ (surjective_pairing _)) as [Hj [Ht Hd]].
    rewrite Hj, Ht. auto.
  - destruct (connect_junos_shell_slots env s _ _ (surjective_pairing _))
      as [Hj [Ht Hd]].
    rewrite Hj, Ht. auto.
  - destruct (jumphost_connect_slots env hostname username password port s
                _ _ (surjective_pairing _)) as [Hd [Ht Hj]].
    rewrite Hd, Ht. repeat split; auto.
  - destruct (jumphost_transport_connect_slots env hostname username
                password port dst_host dst_username dst_password dst_port s
                _ _ (surjective_pairing _)) as [Hd Hpair].
    rewrite Hd. repeat split; auto; try (eapply Hpair; eassumption).
    intros; congruence.
  - destruct (helpers_slots os path s) as [H _]. unfold slots in H.
    inversion H as [[Hd Hj Ht]]. rewrite Hd, Hj, Ht. auto.
  - destruct (helpers_slots os path s) as [_ [H _]]. unfold slots in H.
    inversion H as [[Hd Hj Ht]]. rewrite Hd, Hj, Ht. auto.
  - destruct (helpers_slots os path s) as [_ [_ H]]. unfold slots in H.
    inversion H as [[Hd Hj Ht]]. rewrite Hd, Hj, Ht. auto.
  - destruct (copy_file_local_to_remote_slots env src_path dst_path
                use_jumphost s _ _ (surjective_pairing _)) as [Hd [Ht Hj]].
    rewrite Hd, Ht. repeat split; auto.
  - destruct (copy_file_remote_to_local_slots env src_path dst_path
                use_jumphost s _ _ (surjective_pairing _)) as [Hd [Ht Hj]].
    rewrite Hd, Ht. repeat split; auto.
  - pose proof (send_email_slots env email_from email_to email_subject
                  email_body greeting cc_emails destination_path attach_list
                  smtp_server smtp_port s _ _ (surjective_pairing _)) as H.
    unfold slots in H. inversion H as [[Hd Hj Ht]]. rewrite Hd, Hj, Ht.
    auto.
  - simpl. auto.
Qed.

Lemma no_close_run_slots :
  forall tunnel s s',
    no_close_run tunnel s s' ->
    (forall d, _junos_device s = Some d -> _junos_device s' = Some d)
    /\ (forall t j,
          _target_client s = Some t ->
          _jumphost_client s = Some j ->
          _target_client s' = Some t /\ _jumphost_client s' = Some j)
    /\ (tunnel = false ->
        forall c, _jumphost_client s = Some c ->
                  _jumphost_client s' = Some c).
Proof.
  intros tunnel s s' Hrun. induction Hrun as [s | s s' s'' Hstep Hrun IH].
  - auto.
  - destruct (no_close_step_slots _ _ _ Hstep) as [Hd [Hpair Hj]].
    destruct IH as [Hd' [Hpair' Hj']].
    split; [| split].
    + intros d H. apply Hd', Hd, H.
    + intros t j Ht Hjh. destruct (Hpair t j Ht Hjh) as [Ht' Hjh'].
      apply Hpair'; assumption.
    + intros Htunnel c H. apply Hj', Hj; assumption.
Qed.

(** C2, amended. After a connect or open operation has returned, calling it
    again after any number of calls of methods that close nothing returns
    the same handle (or pair) and changes nothing but the log, whatever the
    arguments and the environment of every call; for [jumphost_connect] no
    [jumphost_transport_connect] may be among the calls in between, and for
    [jumphost_transport_connect] the second call must still pass a
    non-empty [dst_host]. *)
Theorem connect_again_returns_cached :
  (forall env env' hostname username password port hostname' username'
          password' port' s d s1 s2,
      junos_open_connection env hostname username password port s
      = (Ret d, s1) ->
      no_close_run true s1 s2 ->
      junos_open_connection env' hostname' username' password' port' s2
      = (Ret d, add_log (INFO, "Junos connection already open") s2))
  /\ (forall env env' hostname username password port hostname' username'
             password' port' s c s1 s2,
        jumphost_connect env hostname username password port s
        = (Ret c, s1) ->
        no_close_run false s1 s2 ->
        jumphost_connect env' hostname' username' password' port' s2
        = (Ret c, add_log (INFO, "Jumphost connection already open") s2))
  /\ (forall env env' hostname username password port dst_host dst_username
             dst_password dst_port hostname' username' password' port'
             dst_host' dst_username' dst_password' dst_port' s p s1 s2,
        Py.truthy dst_host' = true ->
        jumphost_transport_connect env hostname username password port
          dst_host dst_username dst_password dst_port s = (Ret p, s1) ->
        no_close_run true s1 s2 ->
        jumphost_transport_connect env' hostname' username' password' port'
          dst_host' dst_username' dst_password' dst_port' s2
        = (Ret p,
           add_log (INFO, "Jumphost transport connection already open") s2)).
Proof.
  split; [| split].
  - intros * Hrun Hquiet. apply junos_open_caches in Hrun.
    destruct (no_close_run_slots _ _ _ Hquiet) as [Hd _].
    apply Hd in Hrun.
    unfold junos_open_connection, bind, gets. simpl. rewrite Hrun.
    reflexivity.
  - intros * Hrun Hquiet. apply jumphost_connect_caches in Hrun.
    destruct (no_close_run_slots _ _ _ Hquiet) as [_ [_ Hj]].
    apply (Hj eq_refl) in Hrun.
    unfold jumphost_connect, bind, gets. simpl. rewrite Hrun. reflexivity.
  - intros * Hdst Hrun Hquiet. destruct p as [t j].
    apply transport_connect_caches in Hrun. destruct Hrun as [Ht Hj].
    destruct (no_close_run_slots _ _ _ Hquiet) as [_ [Hpair _]].
    destruct (Hpair t j Ht Hj) as [Ht' Hj'].
    unfold jumphost_transport_connect, bind, gets. rewrite Hdst. simpl.
    rewrite Ht', Hj'. reflexivity.
Qed.

(** Between the two calls: an upload through the cached jump host, a mail,
    and, where the claim allows it, a tunnel. *)
Lemma connect_again_returns_cached_witness :
  let upload s :=
    snd (copy_file_local_to_remote env_ok (Some "/var/tmp/report.txt")
           (Some "/tmp/report.txt") true s) in
  let mail s :=
    snd (send_email env_relay_down (Some "noc@example.net")
           (Some "ops@example.net") (Some "Report") (Some "See attachment.")
           (Some "Hello,") None None None "localhost" 25%Z s) in
  let tunnel s :=
    snd (jumphost_transport_connect env_ok (Some "jump") (Some "u")
           (Some "p") (Some 22%Z) (Some "target") (Some "u") (Some "p")
           (Some 22%Z) s) in
  let s0 := new_manager in
  let s1 := snd (junos_open_connection env_ok (Some "r1") (Some "u")
                   (Some "p") (Some 22%Z) s0) in
  let s2 := snd (jumphost_connect env_ok (Some "jump") (Some "u") (Some "p")
                   (Some 22%Z) s0) in
  let s3 := tunnel s0 in
  junos_open_connection env_target_refuses None None None None
    (tunnel (mail (upload s1)))
  = (Ret 0,
     add_log (INFO, "Junos connection already open")
       (tunnel (mail (upload s1))))
  /\ jumphost_connect env_target_refuses None None None None
       (mail (upload s2))
     = (Ret 0,
        add_log (INFO, "Jumphost connection already open")
          (mail (upload s2)))
  /\ jumphost_transport_connect env_target_refuses None None None None
       (Some "other") None None None (tunnel (mail (upload s3)))
     = (Ret (2, 0),
        add_log (INFO, "Jumphost transport connection already open")
          (tunnel (mail (upload s3)))).
Proof.
  intros upload mail tunnel s0 s1 s2 s3.
  destruct connect_again_returns_cached as [Hjunos [Hjump Htunnel]].
  split; [| split].
  - apply (Hjunos env_ok env_target_refuses (Some "r1") (Some "u") (Some "p")
             (Some 22%Z) None None None None s0 0 s1).
    + vm_compute. reflexivity.
    + eapply no_close_next; [apply quiet_copy_file_local_to_remote |].
      eapply no_close_next; [apply quiet_send_email |].
      eapply no_close_next;
        [apply quiet_jumphost_transport_connect; reflexivity |].
      apply no_close_done.
  - apply (Hjump env_ok env_target_refuses (Some "jump") (Some "u")
             (Some "p") (Some 22%Z) None None None None s0 0 s2).
    + vm_compute. reflexivity.
    + eapply no_close_next; [apply quiet_copy_file_local_to_remote |].
      eapply no_close_next; [apply quiet_send_email |].
      apply no_close_done.
  - apply (Htunnel env_ok env_target_refuses (Some "jump") (Some "u")
             (Some "p") (Some 22%Z) (Some "target") (Some "u") (Some "p")
             (Some 22%Z) None None None None (Some "other") None None None
             s0 (2, 0) s3).
    + reflexivity.
    + vm_compute. reflexivity.
    + eapply no_close_next; [apply quiet_copy_file_local_to_remote |].
      eapply no_close_next; [apply quiet_send_email |].
      eapply no_close_next;
        [apply quiet_jumphost_transport_connect; reflexivity |].
      apply no_close_done.
Defined.

(** C2 as stated fails in two ways.  A second [jumphost_transport_connect]
    that passes an empty [dst_host] raises [ValueError] although the pair
    is cached.  And with no close in between, a [jumphost_transport_connect]
    made after [jumphost_connect] constructs a second jump-host client and
    puts it in the slot, so that the next [jumphost_connect] returns another
    handle than the first. *)
Lemma connect_again_counterexamples :
  let tunnel dst_host s :=
    jumphost_transport_connect env_ok (Some "jump") (Some "u") (Some "p")
      (Some 22%Z) (Some dst_host) (Some "u") (Some "p") (Some 22%Z) s in
  let connect s :=
    jumphost_connect env_ok (Some "jump") (Some "u") (Some "p") (Some 22%Z)
      s in
  (fst (tunnel "target" new_manager) = Ret (2, 0)
   /\ _target_client (snd (tunnel "target" new_manager)) = Some 2
   /\ _jumphost_client (snd (tunnel "target" new_manager)) = Some 0
   /\ fst (tunnel "" (snd (tunnel "target" new_manager)))
      = Raise (ValueError
                 "dst_host must be set for jumphost transport connection"))
  /\ (fst (connect new_manager) = Ret 0
      /\ fst (tunnel "target" (snd (connect new_manager))) = Ret (3, 1)
      /\ fst (connect (snd (tunnel "target" (snd (connect new_manager)))))
         = Ret 1
      /\ filter is_close
           (trace (snd (connect (snd (tunnel "target"
                                        (snd (connect new_manager)))))))
         = []).
Proof.
  vm_compute. auto 10.
Qed.
